(** * mcp-ynab: the tool registry, the dispatch adapter and the gateway client

    A shallow embedding of [src/config.py], [src/ynab_client.py] and
    [src/main.py].  Python dictionaries with string keys are finite maps
    ([gmap string _]) or, where the order of a literal matters, association
    lists; [str | None] is [option string]; exceptions are a datatype; code
    that raises or performs HTTP requests runs in a small state-and-exception
    monad whose state records the requests that went out. *)

From Stdlib Require Import Ascii.
From stdpp Require Import base strings gmap list pretty.

(** ** Python values shared by the three modules *)

(** A JSON document as [response.json()] produces it and [json.dumps]
    consumes it.  The program never inspects one. *)
#[warnings="-register-all"] Inductive JSON : Type :=
| JNull
| JBool (b : bool)
| JNumber (n : Z)
| JString (s : string)
| JArray (items : list JSON)
| JObject (members : list (string * JSON)).

(** [sep.join(parts)] *)
Fixpoint join (sep : string) (parts : list string) : string :=
  match parts with
  | [] => EmptyString
  | [p] => p
  | p :: rest => p +:+ sep +:+ join sep rest
  end.

(** A [str | None] used as a condition, [if v: ...]: the branch is taken
    for a non-empty string only, and [v] is that string inside it. *)
Definition if_truthy (v : option string) : option string :=
  match v with
  | Some s => if String.eqb s EmptyString then None else Some s
  | None => None
  end.

(** ** httpx: the part of the HTTP library the client relies on *)
Module httpx.

Record Request : Type := {
  method : string;
  base_url : string;
  url : string;
  headers : gmap string string;
  timeout : Z
}.

(** Outcome of [response.json()]: the decoded document, or the message of
    the [json.JSONDecodeError] it raises. *)
Inductive Body : Type :=
| Decoded (document : JSON)
| Undecodable (msg : string).

Record Response : Type := {
  status_code : Z;
  text : string;
  json : Body
}.

(** What the network does with a request: a response, or a transport
    failure (DNS, refused connection, timeout) with its description. *)
Inductive Outcome : Type :=
| Responded (response : Response)
| Failed (description : string).

(** [httpx.Client(base_url=..., headers=..., timeout=...)] *)
Record Client : Type := {
  client_base_url : string;
  client_headers : gmap string string;
  client_timeout : Z
}.

Definition is_success (status : Z) : bool :=
  (200 <=? status)%Z && (status <? 300)%Z.

End httpx.

(** State the program acts on: whether the live client's session has been
    closed (the program holds one client at a time), and every request sent
    so far, oldest first. *)
Record World : Type := {
  closed : bool;
  sent : list httpx.Request
}.

(** ** Exceptions *)

Inductive Exception : Type :=
| YNABClientError (msg : string)
| ValueError (msg : string)
| JSONDecodeError (msg : string)
| KeyError (key : string)
| RuntimeError (msg : string)
| HTTPStatusError (msg : string) (response : httpx.Response)
| RequestError (msg : string)
| UnicodeEncodeError (msg : string)
| InvalidURL (msg : string).

(** The classes named in [except] clauses. *)
Inductive ExceptionClass : Type :=
| cls_YNABClientError
| cls_ValueError
| cls_HTTPStatusError
| cls_RequestError
| cls_Exception.

(** [isinstance(e, cls)]; [json.JSONDecodeError] and [UnicodeEncodeError]
    derive from [ValueError], [httpx.InvalidURL] from [Exception] only. *)
Definition isinstance (e : Exception) (cls : ExceptionClass) : bool :=
  match cls, e with
  | cls_Exception, _ => true
  | cls_YNABClientError, YNABClientError _ => true
  | cls_ValueError,
    (ValueError _ | JSONDecodeError _ | UnicodeEncodeError _) => true
  | cls_HTTPStatusError, HTTPStatusError _ _ => true
  | cls_RequestError, RequestError _ => true
  | _, _ => false
  end.

(** [str(e)].  A [KeyError] prints the [repr] of its key; the keys this
    program looks up are plain identifiers, whose [repr] is the key between
    single quotes. *)
Definition str (e : Exception) : string :=
  match e with
  | YNABClientError msg | ValueError msg | JSONDecodeError msg
  | RuntimeError msg | HTTPStatusError msg _ | RequestError msg
  | UnicodeEncodeError msg | InvalidURL msg => msg
  | KeyError key => "'" +:+ key +:+ "'"
  end.

(** ** The monad of code that raises and talks to the network *)

Inductive Result (A : Type) : Type :=
| Return (a : A)
| Raise (e : Exception).
Arguments Return {A} a.
Arguments Raise {A} e.

Definition M (A : Type) : Type := World → Result A * World.

Definition run {A} (m : M A) (w : World) : Result A * World := m w.

#[global] Instance M_ret : MRet M := λ A a w, (Return a, w).

#[global] Instance M_bind : MBind M := λ A B f m w,
  match m w with
  | (Return a, w') => f a w'
  | (Raise e, w') => (Raise e, w')
  end.

Definition raise {A} (e : Exception) : M A := λ w, (Raise e, w).

Definition lift {A} (r : Result A) : M A := λ w, (r, w).

(** The first [except] clause whose class the exception is an instance of
    handles it; with none, it propagates. *)
Fixpoint handle {A} (clauses : list (ExceptionClass * (Exception → M A)))
    (e : Exception) : M A :=
  match clauses with
  | [] => raise e
  | (cls, handler) :: rest =>
      if isinstance e cls then handler e else handle rest e
  end.

(** [try: body  except cls1 as e: ...  except cls2 as e: ...] *)
Definition try_except {A} (body : M A)
    (clauses : list (ExceptionClass * (Exception → M A))) : M A := λ w,
  match body w with
  | (Return a, w') => (Return a, w')
  | (Raise e, w') => handle clauses e w'
  end.

(** [with cm as x: body], for a context manager whose [__exit__] returns
    [None]: [exit] runs on every way out of [body], and an exception raised
    by [body] goes on propagating after it. *)
Definition with_exit {A} (exit : M unit) (body : M A) : M A := λ w,
  match body w with
  | (r, w') =>
      match exit w' with
      | (Return _, w'') => (r, w'')
      | (Raise e, w'') => (Raise e, w'')
      end
  end.

Module httpx_client.
Section Transport.

Variable upstream : httpx.Request → httpx.Outcome.

(** [httpx.Client(...)]: a new client, with an open session. *)
Definition Client (base_url : string) (headers : gmap string string)
    (timeout : Z) : M httpx.Client := λ w,
  (Return {| httpx.client_base_url := base_url;
             httpx.client_headers := headers;
             httpx.client_timeout := timeout |},
   {| closed := false; sent := sent w |}).

(** [client.get(url)]: a closed client refuses to send; otherwise the
    request goes out with the client's headers and timeout, and a
    transport failure surfaces as [httpx.RequestError]. *)
Definition get (c : httpx.Client) (url : string) : M httpx.Response := λ w,
  if closed w then
    (Raise (RuntimeError "Cannot send a request, as the client has been closed."), w)
  else
    let request := {| httpx.method := "GET";
                      httpx.base_url := httpx.client_base_url c;
                      httpx.url := url;
                      httpx.headers := httpx.client_headers c;
                      httpx.timeout := httpx.client_timeout c |} in
    let w' := {| closed := closed w; sent := sent w ++ [request] |} in
    match upstream request with
    | httpx.Responded response => (Return response, w')
    | httpx.Failed description => (Raise (RequestError description), w')
    end.

(** [response.raise_for_status()]: any status outside 2xx raises.  The
    text httpx composes for the exception is never read by this program;
    the model keeps the status only. *)
Definition raise_for_status (response : httpx.Response) : M unit :=
  if httpx.is_success (httpx.status_code response) then mret ()
  else raise (HTTPStatusError
                ("HTTP " +:+ pretty (httpx.status_code response)) response).

(** [response.json()] *)
Definition json (response : httpx.Response) : M JSON :=
  match httpx.json response with
  | httpx.Decoded document => mret document
  | httpx.Undecodable msg => raise (JSONDecodeError msg)
  end.

(** [client.close()] *)
Definition close : M unit := λ w,
  (Return (), {| closed := true; sent := sent w |}).

End Transport.
End httpx_client.

(** ** src/config.py *)
Module config.

Record Config : Type := {
  ynab_token : string;
  ynab_base_url : string
}.

Definition default_base_url : string := "https://api.ynab.com/v1".

(** [Config.from_env()], reading [os.environ]: [not ynab_token] holds for
    an unset variable and for the empty string. *)
Definition from_env (environ : gmap string string) : Result Config :=
  let required :=
    ValueError ("YNAB_TOKEN environment variable is required. " +:+
                "Please set it to your YNAB personal access token.") in
  match environ !! "YNAB_TOKEN" with
  | None => Raise required
  | Some ynab_token =>
      if String.eqb ynab_token EmptyString then Raise required
      else
        let ynab_base_url :=
          default default_base_url (environ !! "YNAB_BASE_URL") in
        Return {| ynab_token := ynab_token; ynab_base_url := ynab_base_url |}
  end.

Definition get_config (environ : gmap string string) : Result Config :=
  from_env environ.

End config.

(** ** src/ynab_client.py *)
Module ynab_client.

Record YNABClient : Type := {
  config : config.Config;
  _client : httpx.Client
}.

(** The header dictionary passed to [httpx.Client] by [__init__]. *)
Definition session_headers (config : config.Config) : gmap string string :=
  {[ "Authorization" := "Bearer " +:+ config.ynab_token config;
     "Content-Type" := "application/json" ]}.

(** [YNABClient.__init__]: binds the HTTP client to the base URL, the
    headers and the timeout (in seconds). *)
Definition __init__ (config : config.Config) : M YNABClient :=
  _client ← httpx_client.Client
              (config.ynab_base_url config) (session_headers config) 30;
  mret {| config := config; _client := _client |}.

Definition close (self : YNABClient) : M unit := httpx_client.close.

Definition __enter__ (self : YNABClient) : M YNABClient := mret self.

Definition __exit__ (self : YNABClient) : M unit := close self.

Section Client.

Variable upstream : httpx.Request → httpx.Outcome.

(** [_make_request]: the one place that performs a request and classifies
    its failures. *)
Definition _make_request (self : YNABClient) (endpoint : string) : M JSON :=
  try_except
    (response ← httpx_client.get upstream (_client self) endpoint;
     _ ← httpx_client.raise_for_status response;
     httpx_client.json response)
    [ (cls_HTTPStatusError,
       λ e, match e with
            | HTTPStatusError _ response =>
                raise (YNABClientError
                  ("YNAB API request failed with status " +:+
                   pretty (httpx.status_code response) +:+ ": " +:+
                   httpx.text response))
            | _ => raise e
            end);
      (cls_RequestError,
       λ e, raise (YNABClientError ("YNAB API request failed: " +:+ str e))) ].

(** Budget endpoints *)

Definition get_budgets (self : YNABClient) : M JSON :=
  _make_request self "/budgets".

Definition get_budget (self : YNABClient) (budget_id : string) : M JSON :=
  _make_request self ("/budgets/" +:+ budget_id).

Definition get_budget_settings (self : YNABClient) (budget_id : string) : M JSON :=
  _make_request self ("/budgets/" +:+ budget_id +:+ "/settings").

(** Account endpoints *)

Definition get_accounts (self : YNABClient) (budget_id : string) : M JSON :=
  _make_request self ("/budgets/" +:+ budget_id +:+ "/accounts").

Definition get_account (self : YNABClient) (budget_id account_id : string) : M JSON :=
  _make_request self
    ("/budgets/" +:+ budget_id +:+ "/accounts/" +:+ account_id).

(** Category endpoints *)

Definition get_categories (self : YNABClient) (budget_id : string) : M JSON :=
  _make_request self ("/budgets/" +:+ budget_id +:+ "/categories").

Definition get_category (self : YNABClient) (budget_id category_id : string) : M JSON :=
  _make_request self
    ("/budgets/" +:+ budget_id +:+ "/categories/" +:+ category_id).

(** Payee endpoints *)

Definition get_payees (self : YNABClient) (budget_id : string) : M JSON :=
  _make_request self ("/budgets/" +:+ budget_id +:+ "/payees").

Definition get_payee (self : YNABClient) (budget_id payee_id : string) : M JSON :=
  _make_request self ("/budgets/" +:+ budget_id +:+ "/payees/" +:+ payee_id).

(** Transaction endpoints *)

(** The [params] dictionary [get_transactions] fills, in insertion
    order. *)
Definition transactions_params (since_date type_filter : option string)
    : list (string * string) :=
  let params := [] in
  let params :=
    match if_truthy since_date with
    | Some since_date => params ++ [("since_date", since_date)]
    | None => params
    end in
  let params :=
    match if_truthy type_filter with
    | Some type_filter => params ++ [("type", type_filter)]
    | None => params
    end in
  params.

(** The endpoint [get_transactions] requests: [if params:] appends the
    pairs to the path as a query string. *)
Definition transactions_endpoint
    (budget_id : string) (since_date type_filter : option string) : string :=
  let params := transactions_params since_date type_filter in
  let endpoint := "/budgets/" +:+ budget_id +:+ "/transactions" in
  match params with
  | [] => endpoint
  | _ :: _ =>
      let param_str := join "&" (map (λ kv, kv.1 +:+ "=" +:+ kv.2) params) in
      endpoint +:+ "?" +:+ param_str
  end.

Definition get_transactions (self : YNABClient) (budget_id : string)
    (since_date type_filter : option string) : M JSON :=
  _make_request self (transactions_endpoint budget_id since_date type_filter).

Definition get_transaction (self : YNABClient) (budget_id transaction_id : string) : M JSON :=
  _make_request self
    ("/budgets/" +:+ budget_id +:+ "/transactions/" +:+ transaction_id).

(** The three by-resource listings end alike:
    [if since_date: endpoint = f"{endpoint}?since_date={since_date}"]. *)
Definition with_since_date (endpoint : string) (since_date : option string) : string :=
  match if_truthy since_date with
  | Some since_date => endpoint +:+ "?since_date=" +:+ since_date
  | None => endpoint
  end.

Definition get_transactions_by_account (self : YNABClient)
    (budget_id account_id : string) (since_date : option string) : M JSON :=
  let endpoint :=
    "/budgets/" +:+ budget_id +:+ "/accounts/" +:+ account_id +:+ "/transactions" in
  _make_request self (with_since_date endpoint since_date).

Definition get_transactions_by_category (self : YNABClient)
    (budget_id category_id : string) (since_date : option string) : M JSON :=
  let endpoint :=
    "/budgets/" +:+ budget_id +:+ "/categories/" +:+ category_id +:+ "/transactions" in
  _make_request self (with_since_date endpoint since_date).

Definition get_transactions_by_payee (self : YNABClient)
    (budget_id payee_id : string) (since_date : option string) : M JSON :=
  let endpoint :=
    "/budgets/" +:+ budget_id +:+ "/payees/" +:+ payee_id +:+ "/transactions" in
  _make_request self (with_since_date endpoint since_date).

(** Monthly budget endpoints *)

Definition get_months (self : YNABClient) (budget_id : string) : M JSON :=
  _make_request self ("/budgets/" +:+ budget_id +:+ "/months").

Definition get_month (self : YNABClient) (budget_id month : string) : M JSON :=
  _make_request self ("/budgets/" +:+ budget_id +:+ "/months/" +:+ month).

(** Scheduled transactions *)

Definition get_scheduled_transactions (self : YNABClient) (budget_id : string) : M JSON :=
  _make_request self ("/budgets/" +:+ budget_id +:+ "/scheduled_transactions").

Definition get_scheduled_transaction (self : YNABClient)
    (budget_id scheduled_transaction_id : string) : M JSON :=
  _make_request self
    ("/budgets/" +:+ budget_id +:+ "/scheduled_transactions/" +:+
     scheduled_transaction_id).

End Client.
End ynab_client.

(** ** mcp.types: the protocol values the server exchanges *)
Module mcp.

Record TextContent : Type := mkTextContent {
  type : string;
  text : string
}.

(** One entry of a schema's ["properties"]: its ["type"], its
    ["description"] and, when present, its ["enum"]. *)
Record Property : Type := mkProperty {
  property_type : string;
  property_description : string;
  enum : option (list string)
}.

(** An [inputSchema] dictionary: ["type"], ["properties"] (in the order
    written) and ["required"]. *)
Record InputSchema : Type := mkSchema {
  schema_type : string;
  properties : list (string * Property);
  required : list string
}.

Record Tool : Type := mkTool {
  name : string;
  description : string;
  inputSchema : InputSchema
}.

End mcp.

(** ** src/main.py *)
Module main.

Import mcp.

(** [list_tools()] *)
Definition list_tools : list Tool := [
  mkTool "get_budgets"
    "Get all budgets associated with the YNAB account"
    (mkSchema "object" [] []);
  mkTool "get_budget"
    ("Get a single budget by ID. " +:+
     "Use 'last-used' for the most recently accessed budget.")
    (mkSchema "object"
       [("budget_id", mkProperty "string" "The budget ID or 'last-used'" None)]
       ["budget_id"]);
  mkTool "get_budget_settings"
    "Get settings for a budget including currency format"
    (mkSchema "object"
       [("budget_id", mkProperty "string" "The budget ID or 'last-used'" None)]
       ["budget_id"]);
  mkTool "get_accounts"
    "Get all accounts for a budget"
    (mkSchema "object"
       [("budget_id", mkProperty "string" "The budget ID or 'last-used'" None)]
       ["budget_id"]);
  mkTool "get_account"
    "Get a single account by ID"
    (mkSchema "object"
       [("budget_id", mkProperty "string" "The budget ID or 'last-used'" None);
        ("account_id", mkProperty "string" "The account ID" None)]
       ["budget_id"; "account_id"]);
  mkTool "get_categories"
    "Get all categories for a budget"
    (mkSchema "object"
       [("budget_id", mkProperty "string" "The budget ID or 'last-used'" None)]
       ["budget_id"]);
  mkTool "get_category"
    "Get a single category by ID"
    (mkSchema "object"
       [("budget_id", mkProperty "string" "The budget ID or 'last-used'" None);
        ("category_id", mkProperty "string" "The category ID" None)]
       ["budget_id"; "category_id"]);
  mkTool "get_payees"
    "Get all payees for a budget"
    (mkSchema "object"
       [("budget_id", mkProperty "string" "The budget ID or 'last-used'" None)]
       ["budget_id"]);
  mkTool "get_payee"
    "Get a single payee by ID"
    (mkSchema "object"
       [("budget_id", mkProperty "string" "The budget ID or 'last-used'" None);
        ("payee_id", mkProperty "string" "The payee ID" None)]
       ["budget_id"; "payee_id"]);
  mkTool "get_transactions"
    ("Get transactions for a budget. " +:+
     "Optionally filter by date or type.")
    (mkSchema "object"
       [("budget_id", mkProperty "string" "The budget ID or 'last-used'" None);
        ("since_date",
         mkProperty "string"
           "Filter transactions since this date (YYYY-MM-DD)" None);
        ("type",
         mkProperty "string"
           "Filter by type: 'uncategorized' or 'unapproved'"
           (Some ["uncategorized"; "unapproved"]))]
       ["budget_id"]);
  mkTool "get_transaction"
    "Get a single transaction by ID"
    (mkSchema "object"
       [("budget_id", mkProperty "string" "The budget ID or 'last-used'" None);
        ("transaction_id", mkProperty "string" "The transaction ID" None)]
       ["budget_id"; "transaction_id"]);
  mkTool "get_transactions_by_account"
    "Get transactions for a specific account"
    (mkSchema "object"
       [("budget_id", mkProperty "string" "The budget ID or 'last-used'" None);
        ("account_id", mkProperty "string" "The account ID" None);
        ("since_date",
         mkProperty "string"
           "Filter transactions since this date (YYYY-MM-DD)" None)]
       ["budget_id"; "account_id"]);
  mkTool "get_transactions_by_category"
    "Get transactions for a specific category"
    (mkSchema "object"
       [("budget_id", mkProperty "string" "The budget ID or 'last-used'" None);
        ("category_id", mkProperty "string" "The category ID" None);
        ("since_date",
         mkProperty "string"
           "Filter transactions since this date (YYYY-MM-DD)" None)]
       ["budget_id"; "category_id"]);
  mkTool "get_transactions_by_payee"
    "Get transactions for a specific payee"
    (mkSchema "object"
       [("budget_id", mkProperty "string" "The budget ID or 'last-used'" None);
        ("payee_id", mkProperty "string" "The payee ID" None);
        ("since_date",
         mkProperty "string"
           "Filter transactions since this date (YYYY-MM-DD)" None)]
       ["budget_id"; "payee_id"]);
  mkTool "get_months"
    "Get all budget months"
    (mkSchema "object"
       [("budget_id", mkProperty "string" "The budget ID or 'last-used'" None)]
       ["budget_id"]);
  mkTool "get_month"
    "Get a single budget month with category balances"
    (mkSchema "object"
       [("budget_id", mkProperty "string" "The budget ID or 'last-used'" None);
        ("month",
         mkProperty "string"
           "The month in YYYY-MM-DD format (day will be ignored)" None)]
       ["budget_id"; "month"]);
  mkTool "get_scheduled_transactions"
    "Get all scheduled transactions for a budget"
    (mkSchema "object"
       [("budget_id", mkProperty "string" "The budget ID or 'last-used'" None)]
       ["budget_id"]);
  mkTool "get_scheduled_transaction"
    "Get a single scheduled transaction by ID"
    (mkSchema "object"
       [("budget_id", mkProperty "string" "The budget ID or 'last-used'" None);
        ("scheduled_transaction_id",
         mkProperty "string" "The scheduled transaction ID" None)]
       ["budget_id"; "scheduled_transaction_id"])
].

(** [get_ynab_client()], reading the configuration from [os.environ]. *)
Definition get_ynab_client (environ : gmap string string)
    : M ynab_client.YNABClient :=
  config ← lift (config.get_config environ);
  ynab_client.__init__ config.

(** [arguments[key]] *)
Definition getitem (arguments : gmap string string) (key : string) : M string :=
  match arguments !! key with
  | Some value => mret value
  | None => raise (KeyError key)
  end.

Section Server.

Variable upstream : httpx.Request → httpx.Outcome.

(** [json.dumps(data, indent=indent)] *)
Variable json_dumps : JSON → nat → string.

Definition format_response (data : JSON) : string := json_dumps data 2.

(** [_execute_tool]: the [match name] statement, one [case] per branch.
    The arguments of a call are evaluated left to right before the call. *)
Definition _execute_tool (client : ynab_client.YNABClient) (name : string)
    (arguments : gmap string string) : M JSON :=
  if String.eqb name "get_budgets" then
    ynab_client.get_budgets upstream client
  else if String.eqb name "get_budget" then
    budget_id ← getitem arguments "budget_id";
    ynab_client.get_budget upstream client budget_id
  else if String.eqb name "get_budget_settings" then
    budget_id ← getitem arguments "budget_id";
    ynab_client.get_budget_settings upstream client budget_id
  else if String.eqb name "get_accounts" then
    budget_id ← getitem arguments "budget_id";
    ynab_client.get_accounts upstream client budget_id
  else if String.eqb name "get_account" then
    budget_id ← getitem arguments "budget_id";
    account_id ← getitem arguments "account_id";
    ynab_client.get_account upstream client budget_id account_id
  else if String.eqb name "get_categories" then
    budget_id ← getitem arguments "budget_id";
    ynab_client.get_categories upstream client budget_id
  else if String.eqb name "get_category" then
    budget_id ← getitem arguments "budget_id";
    category_id ← getitem arguments "category_id";
    ynab_client.get_category upstream client budget_id category_id
  else if String.eqb name "get_payees" then
    budget_id ← getitem arguments "budget_id";
    ynab_client.get_payees upstream client budget_id
  else if String.eqb name "get_payee" then
    budget_id ← getitem arguments "budget_id";
    payee_id ← getitem arguments "payee_id";
    ynab_client.get_payee upstream client budget_id payee_id
  else if String.eqb name "get_transactions" then
    budget_id ← getitem arguments "budget_id";
    ynab_client.get_transactions upstream client budget_id
      (arguments !! "since_date") (arguments !! "type")
  else if String.eqb name "get_transaction" then
    budget_id ← getitem arguments "budget_id";
    transaction_id ← getitem arguments "transaction_id";
    ynab_client.get_transaction upstream client budget_id transaction_id
  else if String.eqb name "get_transactions_by_account" then
    budget_id ← getitem arguments "budget_id";
    account_id ← getitem arguments "account_id";
    ynab_client.get_transactions_by_account upstream client
      budget_id account_id (arguments !! "since_date")
  else if String.eqb name "get_transactions_by_category" then
    budget_id ← getitem arguments "budget_id";
    category_id ← getitem arguments "category_id";
    ynab_client.get_transactions_by_category upstream client
      budget_id category_id (arguments !! "since_date")
  else if String.eqb name "get_transactions_by_payee" then
    budget_id ← getitem arguments "budget_id";
    payee_id ← getitem arguments "payee_id";
    ynab_client.get_transactions_by_payee upstream client
      budget_id payee_id (arguments !! "since_date")
  else if String.eqb name "get_months" then
    budget_id ← getitem arguments "budget_id";
    ynab_client.get_months upstream client budget_id
  else if String.eqb name "get_month" then
    budget_id ← getitem arguments "budget_id";
    month ← getitem arguments "month";
    ynab_client.get_month upstream client budget_id month
  else if String.eqb name "get_scheduled_transactions" then
    budget_id ← getitem arguments "budget_id";
    ynab_client.get_scheduled_transactions upstream client budget_id
  else if String.eqb name "get_scheduled_transaction" then
    budget_id ← getitem arguments "budget_id";
    scheduled_transaction_id ← getitem arguments "scheduled_transaction_id";
    ynab_client.get_scheduled_transaction upstream client
      budget_id scheduled_transaction_id
  else
    raise (ValueError ("Unknown tool: " +:+ name)).

(** [call_tool]: the body runs inside [with get_ynab_client() as client],
    under the three [except] clauses in the order written. *)
Definition call_tool (environ : gmap string string) (name : string)
    (arguments : gmap string string) : M (list TextContent) :=
  try_except
    (manager ← get_ynab_client environ;
     client ← ynab_client.__enter__ manager;
     with_exit (ynab_client.__exit__ manager)
       (result ← _execute_tool client name arguments;
        mret [mkTextContent "text" (format_response result)]))
    [ (cls_YNABClientError,
       λ e, mret [mkTextContent "text" ("Error: " +:+ str e)]);
      (cls_ValueError,
       λ e, mret [mkTextContent "text" ("Configuration Error: " +:+ str e)]);
      (cls_Exception,
       λ e, mret [mkTextContent "text" ("Error: " +:+ str e)]) ].

End Server.
End main.

(** ** Vocabulary of the properties *)

(** A call of one of the gateway client's public methods, with its actual
    arguments: the means to speak of every method at once. *)
Module Call.

Inductive t : Type :=
| get_budgets
| get_budget (budget_id : string)
| get_budget_settings (budget_id : string)
| get_accounts (budget_id : string)
| get_account (budget_id account_id : string)
| get_categories (budget_id : string)
| get_category (budget_id category_id : string)
| get_payees (budget_id : string)
| get_payee (budget_id payee_id : string)
| get_transactions (budget_id : string) (since_date type_filter : option string)
| get_transaction (budget_id transaction_id : string)
| get_transactions_by_account (budget_id account_id : string) (since_date : option string)
| get_transactions_by_category (budget_id category_id : string) (since_date : option string)
| get_transactions_by_payee (budget_id payee_id : string) (since_date : option string)
| get_months (budget_id : string)
| get_month (budget_id month : string)
| get_scheduled_transactions (budget_id : string)
| get_scheduled_transaction (budget_id scheduled_transaction_id : string).

(** The method's name. *)
Definition name (c : t) : string :=
  match c with
  | get_budgets => "get_budgets"
  | get_budget _ => "get_budget"
  | get_budget_settings _ => "get_budget_settings"
  | get_accounts _ => "get_accounts"
  | get_account _ _ => "get_account"
  | get_categories _ => "get_categories"
  | get_category _ _ => "get_category"
  | get_payees _ => "get_payees"
  | get_payee _ _ => "get_payee"
  | get_transactions _ _ _ => "get_transactions"
  | get_transaction _ _ => "get_transaction"
  | get_transactions_by_account _ _ _ => "get_transactions_by_account"
  | get_transactions_by_category _ _ _ => "get_transactions_by_category"
  | get_transactions_by_payee _ _ _ => "get_transactions_by_payee"
  | get_months _ => "get_months"
  | get_month _ _ => "get_month"
  | get_scheduled_transactions _ => "get_scheduled_transactions"
  | get_scheduled_transaction _ _ => "get_scheduled_transaction"
  end.

(** The actual arguments, each under the key the dispatcher reads it
    from; an optional one may be [None]. *)
Definition actuals (c : t) : list (string * option string) :=
  match c with
  | get_budgets => []
  | get_budget b | get_budget_settings b | get_accounts b | get_categories b
  | get_payees b | get_months b | get_scheduled_transactions b =>
      [("budget_id", Some b)]
  | get_account b a => [("budget_id", Some b); ("account_id", Some a)]
  | get_category b c => [("budget_id", Some b); ("category_id", Some c)]
  | get_payee b p => [("budget_id", Some b); ("payee_id", Some p)]
  | get_transactions b since type =>
      [("budget_id", Some b); ("since_date", since); ("type", type)]
  | get_transaction b x => [("budget_id", Some b); ("transaction_id", Some x)]
  | get_transactions_by_account b a since =>
      [("budget_id", Some b); ("account_id", Some a); ("since_date", since)]
  | get_transactions_by_category b c since =>
      [("budget_id", Some b); ("category_id", Some c); ("since_date", since)]
  | get_transactions_by_payee b p since =>
      [("budget_id", Some b); ("payee_id", Some p); ("since_date", since)]
  | get_month b m => [("budget_id", Some b); ("month", Some m)]
  | get_scheduled_transaction b x =>
      [("budget_id", Some b); ("scheduled_transaction_id", Some x)]
  end.

(** Performing the call on a client. *)
Definition invoke (upstream : httpx.Request → httpx.Outcome)
    (self : ynab_client.YNABClient) (c : t) : M JSON :=
  match c with
  | get_budgets => ynab_client.get_budgets upstream self
  | get_budget b => ynab_client.get_budget upstream self b
  | get_budget_settings b => ynab_client.get_budget_settings upstream self b
  | get_accounts b => ynab_client.get_accounts upstream self b
  | get_account b a => ynab_client.get_account upstream self b a
  | get_categories b => ynab_client.get_categories upstream self b
  | get_category b c => ynab_client.get_category upstream self b c
  | get_payees b => ynab_client.get_payees upstream self b
  | get_payee b p => ynab_client.get_payee upstream self b p
  | get_transactions b since type =>
      ynab_client.get_transactions upstream self b since type
  | get_transaction b x => ynab_client.get_transaction upstream self b x
  | get_transactions_by_account b a since =>
      ynab_client.get_transactions_by_account upstream self b a since
  | get_transactions_by_category b c since =>
      ynab_client.get_transactions_by_category upstream self b c since
  | get_transactions_by_payee b p since =>
      ynab_client.get_transactions_by_payee upstream self b p since
  | get_months b => ynab_client.get_months upstream self b
  | get_month b m => ynab_client.get_month upstream self b m
  | get_scheduled_transactions b =>
      ynab_client.get_scheduled_transactions upstream self b
  | get_scheduled_transaction b x =>
      ynab_client.get_scheduled_transaction upstream self b x
  end.

End Call.

(** [sub] occurs in [s]. *)
Definition contains (s sub : string) : Prop :=
  ∃ before after, s = before +:+ sub +:+ after.

(** Reading a request target as RFC 3986 splits it: the fragment starts at
    the first [#], the query at the first [?] before it, and a query is a
    list of [key=value] pairs separated by [&]. *)
Module URL.

Fixpoint occurs (c : Ascii.ascii) (s : string) : bool :=
  match s with
  | EmptyString => false
  | String x rest => if Ascii.eqb x c then true else occurs c rest
  end.

(** The part of [s] before the first [c]; all of [s] when there is none. *)
Fixpoint before (c : Ascii.ascii) (s : string) : string :=
  match s with
  | EmptyString => EmptyString
  | String x rest => if Ascii.eqb x c then EmptyString else String x (before c rest)
  end.

(** The part of [s] after the first [c], when there is one. *)
Fixpoint after (c : Ascii.ascii) (s : string) : option string :=
  match s with
  | EmptyString => None
  | String x rest => if Ascii.eqb x c then Some rest else after c rest
  end.

(** [s.split(c)] *)
Fixpoint split (c : Ascii.ascii) (s : string) : list string :=
  match s with
  | EmptyString => [EmptyString]
  | String x rest =>
      if Ascii.eqb x c then EmptyString :: split c rest
      else match split c rest with
           | [] => [String x EmptyString]
           | first :: others => String x first :: others
           end
  end.

Definition path (target : string) : string :=
  before "?"%char (before "#"%char target).

Definition query (target : string) : option string :=
  after "?"%char (before "#"%char target).

Definition pair (item : string) : string * string :=
  (before "="%char item, default EmptyString (after "="%char item)).

Definition params (target : string) : list (string * string) :=
  match query target with
  | None | Some EmptyString => []
  | Some q => map pair (split "&"%char q)
  end.

(** [path] followed by the query string of [filters], as a client writes
    a target: nothing for no filter, else [?k1=v1&k2=v2...]. *)
Definition with_query (path : string) (filters : list (string * string)) : string :=
  match filters with
  | [] => path
  | _ :: _ =>
      path +:+ "?" +:+ join "&" (map (λ kv, kv.1 +:+ "=" +:+ kv.2) filters)
  end.

(** An identifier that can stand in a path: free of [?] and [#]. *)
Definition plain_segment (s : string) : Prop :=
  occurs "?"%char s = false ∧ occurs "#"%char s = false.

(** A key that can stand in a query: not empty, free of [=], [&]
    and [#]. *)
Definition plain_key (s : string) : Prop :=
  s ≠ EmptyString ∧ occurs "="%char s = false ∧
  occurs "&"%char s = false ∧ occurs "#"%char s = false.

(** A value that can stand in a query: free of [&] and [#]. *)
Definition plain_value (s : string) : Prop :=
  occurs "&"%char s = false ∧ occurs "#"%char s = false.

End URL.

(** The filters a caller of [get_transactions] passes, under the names the
    upstream service knows them by. *)
Definition supplied_filters (since_date type_filter : option string)
    : list (string * string) :=
  match since_date with Some v => [("since_date", v)] | None => [] end ++
  match type_filter with Some v => [("type", v)] | None => [] end.

(** Those among them whose value is not the empty string. *)
Definition non_empty_filters (since_date type_filter : option string)
    : list (string * string) :=
  filter (λ kv, kv.2 ≠ EmptyString) (supplied_filters since_date type_filter).

(** The table of section 4.1 of the specification: tool, required
    parameters, optional parameters; an optional parameter carries the
    values the table restricts it to, if any. *)
Definition tool_table
    : list (string * list string * list (string * option (list string))) := [
  ("get_budgets", [], []);
  ("get_budget", ["budget_id"], []);
  ("get_budget_settings", ["budget_id"], []);
  ("get_accounts", ["budget_id"], []);
  ("get_account", ["budget_id"; "account_id"], []);
  ("get_categories", ["budget_id"], []);
  ("get_category", ["budget_id"; "category_id"], []);
  ("get_payees", ["budget_id"], []);
  ("get_payee", ["budget_id"; "payee_id"], []);
  ("get_transactions", ["budget_id"],
   [("since_date", None); ("type", Some ["uncategorized"; "unapproved"])]);
  ("get_transaction", ["budget_id"; "transaction_id"], []);
  ("get_transactions_by_account", ["budget_id"; "account_id"],
   [("since_date", None)]);
  ("get_transactions_by_category", ["budget_id"; "category_id"],
   [("since_date", None)]);
  ("get_transactions_by_payee", ["budget_id"; "payee_id"],
   [("since_date", None)]);
  ("get_months", ["budget_id"], []);
  ("get_month", ["budget_id"; "month"], []);
  ("get_scheduled_transactions", ["budget_id"], []);
  ("get_scheduled_transaction", ["budget_id"; "scheduled_transaction_id"], [])
].

(** What a descriptor declares: its name, its required parameters, and the
    remaining properties of its schema with their [enum]. *)
Definition declared (tool : mcp.Tool)
    : string * list string * list (string * option (list string)) :=
  let schema := mcp.inputSchema tool in
  (mcp.name tool,
   mcp.required schema,
   map (λ p, (p.1, mcp.enum p.2))
     (filter (λ p, p.1 ∉ mcp.required schema) (mcp.properties schema))).

(** The request [client.get(endpoint)] puts on the wire. *)
Definition request_of (self : ynab_client.YNABClient) (endpoint : string)
    : httpx.Request :=
  {| httpx.method := "GET";
     httpx.base_url := httpx.client_base_url (ynab_client._client self);
     httpx.url := endpoint;
     httpx.headers := httpx.client_headers (ynab_client._client self);
     httpx.timeout := httpx.client_timeout (ynab_client._client self) |}.

(** The world after one more request. *)
Definition after_sending (w : World) (request : httpx.Request) : World :=
  {| closed := closed w; sent := sent w ++ [request] |}.

(** Concrete inputs on which the statements below are exercised. *)
Module Sample.

Definition environ : gmap string string := {[ "YNAB_TOKEN" := "secret-token" ]}.

Definition config : config.Config :=
  {| config.ynab_token := "secret-token";
     config.ynab_base_url := config.default_base_url |}.

Definition client : ynab_client.YNABClient :=
  {| ynab_client.config := config;
     ynab_client._client :=
       {| httpx.client_base_url := config.default_base_url;
          httpx.client_headers := ynab_client.session_headers config;
          httpx.client_timeout := 30 |} |}.

Definition budgets : JSON :=
  JObject [("data", JObject [("budgets", JArray [])])].

(** An upstream that knows [/budgets] and [/budgets/last-used], answers
    404 for [/budgets/b1] and a page that is not JSON for [/budgets/b2],
    and is unreachable for anything else. *)
Definition upstream (request : httpx.Request) : httpx.Outcome :=
  if String.eqb (httpx.url request) "/budgets" then
    httpx.Responded {| httpx.status_code := 200; httpx.text := "{...}";
                       httpx.json := httpx.Decoded budgets |}
  else if String.eqb (httpx.url request) "/budgets/last-used" then
    httpx.Responded {| httpx.status_code := 200; httpx.text := "{...}";
                       httpx.json := httpx.Decoded (JObject [("data", JNull)]) |}
  else if String.eqb (httpx.url request) "/budgets/b1" then
    httpx.Responded {| httpx.status_code := 404; httpx.text := "no such budget";
                       httpx.json := httpx.Undecodable "Expecting value" |}
  else if String.eqb (httpx.url request) "/budgets/b2" then
    httpx.Responded {| httpx.status_code := 200; httpx.text := "<html>";
                       httpx.json := httpx.Undecodable
                         "Expecting value: line 1 column 1 (char 0)" |}
  else httpx.Failed "Connection refused".

Definition world : World := {| closed := false; sent := [] |}.

(** A serializer standing for [json.dumps]: it tells documents apart by
    their outermost shape only. *)
Definition json_dumps (data : JSON) (indent : nat) : string :=
  match data with
  | JNull => "null"
  | JBool true => "true"
  | JBool false => "false"
  | JNumber n => pretty n
  | JString _ => "'...'"
  | JArray _ => "[...]"
  | JObject _ => "{...}"
  end.

(** What [call_tool] replies on the sample upstream. *)
Definition reply (name : string) (arguments : gmap string string)
    (environ : gmap string string) : Result (list string) :=
  match (run (main.call_tool upstream json_dumps environ
                name arguments) world).1 with
  | Return contents => Return (map mcp.text contents)
  | Raise e => Raise e
  end.

End Sample.

(** A computation whose result and whose effect on the session flag depend
    on the world through that flag only, not through what was sent
    before. *)
Definition oblivious {A} (m : M A) : Prop :=
  ∀ w w', closed w = closed w' →
          (run m w).1 = (run m w').1 ∧ closed (run m w).2 = closed (run m w').2.

(** The arguments a caller passes to the dispatcher for a call: the actual
    arguments that are not [None], under their keys. *)
Definition call_arguments (c : Call.t) : gmap string string :=
  list_to_map (omap (λ actual, pair actual.1 <$> actual.2) (Call.actuals c)).

(** The resource identifiers of a call, in the order they enter the path. *)
Definition call_identifiers (c : Call.t) : list string :=
  match c with
  | Call.get_budgets => []
  | Call.get_budget b | Call.get_budget_settings b | Call.get_accounts b
  | Call.get_categories b | Call.get_payees b | Call.get_months b
  | Call.get_scheduled_transactions b
  | Call.get_transactions b _ _ => [b]
  | Call.get_account b x | Call.get_category b x | Call.get_payee b x
  | Call.get_transaction b x | Call.get_month b x
  | Call.get_scheduled_transaction b x
  | Call.get_transactions_by_account b x _
  | Call.get_transactions_by_category b x _
  | Call.get_transactions_by_payee b x _ => [b; x]
  end.

(** The filters of a call that have a non-empty value. *)
Definition call_filters (c : Call.t) : list (string * string) :=
  match c with
  | Call.get_transactions _ since_date type_filter =>
      non_empty_filters since_date type_filter
  | Call.get_transactions_by_account _ _ since_date
  | Call.get_transactions_by_category _ _ since_date
  | Call.get_transactions_by_payee _ _ since_date =>
      non_empty_filters since_date None
  | _ => []
  end.

(** The first of the listed parameters that the arguments lack. *)
Fixpoint first_missing (arguments : gmap string string)
    (parameters : list string) : option string :=
  match parameters with
  | [] => None
  | parameter :: rest =>
      match arguments !! parameter with
      | None => Some parameter
      | Some _ => first_missing arguments rest
      end
  end.

(** The text [call_tool] replies with for what the upstream does with the
    request, when a request is sent. *)
Definition reply_text (json_dumps : JSON → nat → string)
    (outcome : httpx.Outcome) : string :=
  match outcome with
  | httpx.Failed description =>
      "Error: YNAB API request failed: " +:+ description
  | httpx.Responded response =>
      if httpx.is_success (httpx.status_code response) then
        match httpx.json response with
        | httpx.Decoded document => json_dumps document 2
        | httpx.Undecodable msg => "Configuration Error: " +:+ msg
        end
      else
        "Error: YNAB API request failed with status " +:+
        pretty (httpx.status_code response) +:+ ": " +:+ httpx.text response
  end.

(** The message of the [RuntimeError] a closed session raises. *)
Definition client_closed : string :=
  "Cannot send a request, as the client has been closed.".

(** The message of the [ValueError] for a missing credential. *)
Definition token_required : string :=
  "YNAB_TOKEN environment variable is required. " +:+
  "Please set it to your YNAB personal access token.".

(** The base URL the configuration takes from the environment. *)
Definition base_url_of (environ : gmap string string) : string :=
  default config.default_base_url (environ !! "YNAB_BASE_URL").

(** The client built for a token and a base URL. *)
Definition client_for (token base_url : string) : ynab_client.YNABClient :=
  let config :=
    {| config.ynab_token := token; config.ynab_base_url := base_url |} in
  {| ynab_client.config := config;
     ynab_client._client :=
       {| httpx.client_base_url := base_url;
          httpx.client_headers := ynab_client.session_headers config;
          httpx.client_timeout := 30 |} |}.

(** The path of the resource a call asks for. *)
Definition call_path (c : Call.t) : string :=
  match c with
  | Call.get_budgets => "/budgets"
  | Call.get_budget b => "/budgets/" +:+ b
  | Call.get_budget_settings b => "/budgets/" +:+ b +:+ "/settings"
  | Call.get_accounts b => "/budgets/" +:+ b +:+ "/accounts"
  | Call.get_account b a => "/budgets/" +:+ b +:+ "/accounts/" +:+ a
  | Call.get_categories b => "/budgets/" +:+ b +:+ "/categories"
  | Call.get_category b c => "/budgets/" +:+ b +:+ "/categories/" +:+ c
  | Call.get_payees b => "/budgets/" +:+ b +:+ "/payees"
  | Call.get_payee b p => "/budgets/" +:+ b +:+ "/payees/" +:+ p
  | Call.get_transactions b _ _ => "/budgets/" +:+ b +:+ "/transactions"
  | Call.get_transaction b x => "/budgets/" +:+ b +:+ "/transactions/" +:+ x
  | Call.get_transactions_by_account b a _ =>
      "/budgets/" +:+ b +:+ "/accounts/" +:+ a +:+ "/transactions"
  | Call.get_transactions_by_category b c _ =>
      "/budgets/" +:+ b +:+ "/categories/" +:+ c +:+ "/transactions"
  | Call.get_transactions_by_payee b p _ =>
      "/budgets/" +:+ b +:+ "/payees/" +:+ p +:+ "/transactions"
  | Call.get_months b => "/budgets/" +:+ b +:+ "/months"
  | Call.get_month b m => "/budgets/" +:+ b +:+ "/months/" +:+ m
  | Call.get_scheduled_transactions b =>
      "/budgets/" +:+ b +:+ "/scheduled_transactions"
  | Call.get_scheduled_transaction b x =>
      "/budgets/" +:+ b +:+ "/scheduled_transactions/" +:+ x
  end.


(** ** What the HTTP library makes of the client it is asked to build *)

(** [httpx_client.Client] builds a client out of any base URL and any
    headers.  The library looks at both, and at the process it runs in:
    [httpx.Client(...)] parses the base URL and encodes every header as
    ASCII, and raises when it cannot.  [checked] is the construction path,
    and [call_tool] on top of it, over a constructor that may refuse what it
    is given. *)
Module checked.
Section Library.

(** The exception, if any, that [httpx.Client(base_url=..., headers=...)]
    raises. *)
Variable refusal : string → gmap string string → option Exception.

(** [httpx.Client(base_url=..., headers=..., timeout=...)] *)
Definition Client (base_url : string) (headers : gmap string string)
    (timeout : Z) : M httpx.Client :=
  match refusal base_url headers with
  | Some e => raise e
  | None => httpx_client.Client base_url headers timeout
  end.

(** [YNABClient.__init__] *)
Definition __init__ (config : config.Config) : M ynab_client.YNABClient :=
  _client ← Client (config.ynab_base_url config)
              (ynab_client.session_headers config) 30;
  mret {| ynab_client.config := config; ynab_client._client := _client |}.

(** [get_ynab_client()] *)
Definition get_ynab_client (environ : gmap string string)
    : M ynab_client.YNABClient :=
  config ← lift (config.get_config environ);
  __init__ config.

Section Server.

Variable upstream : httpx.Request → httpx.Outcome.
Variable json_dumps : JSON → nat → string.

(** [call_tool] *)
Definition call_tool (environ : gmap string string) (name : string)
    (arguments : gmap string string) : M (list mcp.TextContent) :=
  try_except
    (manager ← get_ynab_client environ;
     client ← ynab_client.__enter__ manager;
     with_exit (ynab_client.__exit__ manager)
       (result ← main._execute_tool upstream client name arguments;
        mret [mcp.mkTextContent "text"
                (main.format_response json_dumps result)]))
    [ (cls_YNABClientError,
       λ e, mret [mcp.mkTextContent "text" ("Error: " +:+ str e)]);
      (cls_ValueError,
       λ e, mret [mcp.mkTextContent "text"
                    ("Configuration Error: " +:+ str e)]);
      (cls_Exception,
       λ e, mret [mcp.mkTextContent "text" ("Error: " +:+ str e)]) ].

End Server.
End Library.
End checked.

(** The headers of the session built for a token. *)
Definition headers_for (token : string) : gmap string string :=
  {[ "Authorization" := "Bearer " +:+ token;
     "Content-Type" := "application/json" ]}.

(** The text [call_tool] replies with for an exception: its message under
    the label of the first [except] clause that takes it. *)
Definition report (e : Exception) : string :=
  (if isinstance e cls_YNABClientError then "Error: "
   else if isinstance e cls_ValueError then "Configuration Error: "
   else "Error: ") +:+ str e.

(** The text [call_tool] replies with for the way the dispatched call
    ends. *)
Definition reply_for (json_dumps : JSON → nat → string)
    (result : Result JSON) : string :=
  match result with
  | Return document => json_dumps document 2
  | Raise e => report e
  end.

(** [str.isascii()].  Strings are held as their bytes, so a character
    outside ASCII shows as bytes with the top bit set. *)
Fixpoint isascii (s : string) : bool :=
  match s with
  | EmptyString => true
  | String (Ascii.Ascii _ _ _ _ _ _ _ top) rest => negb top && isascii rest
  end.

Module Sample_library.

(** A library that does not parse the base URL [http://[::1], and does
    not encode an [Authorization] header that is not ASCII. *)
Definition refusal (base_url : string) (headers : gmap string string)
    : option Exception :=
  if String.eqb base_url "http://[::1" then
    Some (InvalidURL "Invalid port: ':1'")
  else
    match headers !! "Authorization" with
    | Some value =>
        if isascii value then None
        else Some (UnicodeEncodeError
                     ("'ascii' codec can't encode character '\xe9' " +:+
                      "in position 8: ordinal not in range(128)"))
    | None => None
    end.

(** A token with a letter outside ASCII. *)
Definition accented_token : gmap string string := {[ "YNAB_TOKEN" := "té" ]}.

(** A base URL with an unclosed bracket. *)
Definition malformed_url : gmap string string :=
  {[ "YNAB_TOKEN" := "secret-token"; "YNAB_BASE_URL" := "http://[::1" ]}.

End Sample_library.
(** * Properties *)

(** ** Strings *)

Lemma app_cons a s t : String a s +:+ t = String a (s +:+ t).
Proof. reflexivity. Qed.

Lemma app_empty_r s : s +:+ EmptyString = s.
Proof. induction s as [|a s IH]; [reflexivity|]. by rewrite app_cons, IH. Qed.

Lemma app_assoc' s t u : (s +:+ t) +:+ u = s +:+ t +:+ u.
Proof. induction s as [|a s IH]; [reflexivity|]. by rewrite !app_cons, IH. Qed.

Lemma contains_here s sub after : s = sub +:+ after → contains s sub.
Proof. intros ->. by exists EmptyString, after. Qed.

Lemma contains_later s before rest sub :
  s = before +:+ rest → contains rest sub → contains s sub.
Proof.
  intros -> (b & a & ->). exists (before +:+ b), a. by rewrite app_assoc'.
Qed.

Lemma contains_end s before sub : s = before +:+ sub → contains s sub.
Proof. intros ->. exists before, EmptyString. by rewrite app_empty_r. Qed.

(** ** Reading targets *)

Lemma occurs_app c s t : URL.occurs c (s +:+ t) = URL.occurs c s || URL.occurs c t.
Proof.
  induction s as [|a s IH]; [reflexivity|].
  rewrite app_cons. simpl. by destruct (Ascii.eqb a c).
Qed.

Lemma before_absent c s : URL.occurs c s = false → URL.before c s = s.
Proof.
  induction s as [|a s IH]; [done|]. simpl.
  destruct (Ascii.eqb a c); [done|]. intros ?. by rewrite IH.
Qed.

Lemma before_app c s t :
  URL.occurs c s = false → URL.before c (s +:+ String c t) = s.
Proof.
  induction s as [|a s IH].
  - intros _. change (EmptyString +:+ String c t) with (String c t). simpl.
    by rewrite Ascii.eqb_refl.
  - rewrite app_cons. simpl. destruct (Ascii.eqb a c); [done|].
    intros ?. by rewrite IH.
Qed.

Lemma after_app c s t :
  URL.occurs c s = false → URL.after c (s +:+ String c t) = Some t.
Proof.
  induction s as [|a s IH].
  - intros _. change (EmptyString +:+ String c t) with (String c t). simpl.
    by rewrite Ascii.eqb_refl.
  - rewrite app_cons. simpl. destruct (Ascii.eqb a c); [done|]. apply IH.
Qed.

Lemma after_absent c s : URL.occurs c s = false → URL.after c s = None.
Proof.
  induction s as [|a s IH]; [done|]. simpl. by destruct (Ascii.eqb a c).
Qed.

Lemma split_absent c s : URL.occurs c s = false → URL.split c s = [s].
Proof.
  induction s as [|a s IH]; [done|]. simpl.
  destruct (Ascii.eqb a c); [done|]. intros ?. by rewrite IH.
Qed.

Lemma split_app c s t :
  URL.occurs c s = false →
  URL.split c (s +:+ String c t) = s :: URL.split c t.
Proof.
  induction s as [|a s IH].
  - intros _. change (EmptyString +:+ String c t) with (String c t). simpl.
    by rewrite Ascii.eqb_refl.
  - rewrite app_cons. simpl. destruct (Ascii.eqb a c); [done|].
    intros ?. by rewrite IH.
Qed.

(** Splitting undoes joining, for parts free of the separator. *)
Lemma split_join c parts :
  parts ≠ [] →
  Forall (λ p, URL.occurs c p = false) parts →
  URL.split c (join (String c EmptyString) parts) = parts.
Proof.
  induction parts as [|p [|q rest] IH]; [done| |]; intros _ Hfree.
  - apply split_absent. by inversion Hfree.
  - inversion Hfree as [|?? Hp Hrest]; subst.
    change (join (String c EmptyString) (p :: q :: rest))
      with (p +:+ String c (join (String c EmptyString) (q :: rest))).
    rewrite split_app by done. f_equal. by apply IH.
Qed.

(** A [key=value] item reads back as its pair. *)
Lemma pair_item key value :
  URL.occurs "="%char key = false →
  URL.pair (key +:+ "=" +:+ value) = (key, value).
Proof.
  intros Hkey. unfold URL.pair.
  change (key +:+ "=" +:+ value) with (key +:+ String "="%char value).
  by rewrite before_app, after_app.
Qed.

Lemma occurs_join c sep parts :
  URL.occurs c sep = false →
  Forall (λ p, URL.occurs c p = false) parts →
  URL.occurs c (join sep parts) = false.
Proof.
  intros Hsep. induction parts as [|p [|q rest] IH]; intros Hfree; [done| |].
  - by inversion Hfree.
  - inversion Hfree as [|?? Hp Hrest]; subst.
    change (join sep (p :: q :: rest)) with (p +:+ sep +:+ join sep (q :: rest)).
    by rewrite !occurs_app, Hp, Hsep, IH.
Qed.

Lemma join_cons_nonempty sep a p rest :
  ∃ tail, join sep (String a p :: rest) = String a tail.
Proof. destruct rest; eexists; reflexivity. Qed.

(** A target written by [URL.with_query] reads back as its path and its
    filters, when neither contains a delimiter out of place. *)
Lemma read_with_query path filters :
  URL.plain_segment path →
  Forall (λ kv, URL.plain_key kv.1 ∧ URL.plain_value kv.2) filters →
  URL.path (URL.with_query path filters) = path ∧
  URL.params (URL.with_query path filters) = filters.
Proof.
  intros [Hquestion Hhash] Hfilters.
  destruct filters as [|kv rest].
  { unfold URL.path, URL.params, URL.query, URL.with_query.
    by rewrite (before_absent "#"), before_absent, after_absent. }
  set (filters := kv :: rest) in *.
  set (items := map (λ kv, kv.1 +:+ "=" +:+ kv.2) filters).
  change (URL.with_query path filters)
    with (path +:+ String "?"%char (join "&" items)).
  assert (Forall (λ p, URL.occurs "#"%char p = false) items) as Hitems_hash.
  { apply Forall_map. eapply Forall_impl; [exact Hfilters|].
    intros [k v] [(_ & _ & _ & Hk) [_ Hv]]. simpl in *.
    change (k +:+ "=" +:+ v) with (k +:+ String "="%char v).
    rewrite occurs_app. simpl. by rewrite Hk, Hv. }
  assert (Forall (λ p, URL.occurs "&"%char p = false) items) as Hitems_amp.
  { apply Forall_map. eapply Forall_impl; [exact Hfilters|].
    intros [k v] [(_ & _ & Hk & _) [Hv _]]. simpl in *.
    change (k +:+ "=" +:+ v) with (k +:+ String "="%char v).
    rewrite occurs_app. simpl. by rewrite Hk, Hv. }
  assert (∃ a tail, join "&" items = String a tail) as (a & tail & Hq).
  { inversion Hfilters as [|?? [(Hk & _) _] _]; subst.
    destruct kv as [[|a k] v]; [done|].
    destruct (join_cons_nonempty "&" a (k +:+ "=" +:+ v)
                (map (λ kv, kv.1 +:+ "=" +:+ kv.2) rest)) as [tail Htail].
    exists a, tail. exact Htail. }
  assert (URL.before "#"%char (path +:+ String "?"%char (join "&" items)) =
          path +:+ String "?"%char (join "&" items)) as Hwhole.
  { apply before_absent. rewrite occurs_app, Hhash.
    change (URL.occurs "#"%char (String "?"%char (join "&" items)))
      with (URL.occurs "#"%char (join "&" items)).
    by apply occurs_join. }
  unfold URL.path, URL.params, URL.query. rewrite Hwhole.
  rewrite before_app, after_app by done. split; [done|].
  rewrite Hq, <-Hq.
  change "&" with (String "&"%char EmptyString).
  rewrite split_join; [|done|done].
  subst items. rewrite map_map. rewrite <-(map_id filters) at 2.
  apply map_ext_in. intros [k v] Hin. simpl.
  apply pair_item.
  rewrite Forall_forall in Hfilters.
  apply list_elem_of_In, Hfilters in Hin.
  by destruct Hin as [(_ & Hk & _) _].
Qed.

(** ** The gateway client *)
Section Gateway.

Variable upstream : httpx.Request → httpx.Outcome.

(** What [_make_request] does, case by case. *)
Lemma make_request_run self endpoint w :
  run (ynab_client._make_request upstream self endpoint) w =
  if closed w then
    (Raise (RuntimeError "Cannot send a request, as the client has been closed."), w)
  else
    let request := request_of self endpoint in
    match upstream request with
    | httpx.Failed description =>
        (Raise (YNABClientError ("YNAB API request failed: " +:+ description)),
         after_sending w request)
    | httpx.Responded response =>
        if httpx.is_success (httpx.status_code response) then
          match httpx.json response with
          | httpx.Decoded document => (Return document, after_sending w request)
          | httpx.Undecodable msg =>
              (Raise (JSONDecodeError msg), after_sending w request)
          end
        else
          (Raise (YNABClientError
                    ("YNAB API request failed with status " +:+
                     pretty (httpx.status_code response) +:+ ": " +:+
                     httpx.text response)),
           after_sending w request)
    end.
Proof.
  unfold run, ynab_client._make_request, try_except, mbind, M_bind,
    httpx_client.get, httpx_client.raise_for_status, httpx_client.json,
    after_sending.
  fold (request_of self endpoint).
  destruct w as [[] requests]; simpl; [reflexivity|].
  destruct (upstream (request_of self endpoint)) as [response|description];
    [|reflexivity].
  destruct (httpx.is_success (httpx.status_code response)); [|reflexivity].
  destruct (httpx.json response); reflexivity.
Qed.

(** Every public method is one use of the request primitive. *)
Lemma invoke_make_request self call :
  ∃ endpoint,
    Call.invoke upstream self call =
    ynab_client._make_request upstream self endpoint.
Proof. destruct call; eexists; reflexivity. Qed.

Lemma status_400_not_success status :
  (400 ≤ status)%Z → httpx.is_success status = false.
Proof. unfold httpx.is_success. intros. apply andb_false_iff. right. lia. Qed.

(** C4.  On an open client, whichever method is called: when the upstream
    answers the request with a status of 400 or more, the method raises
    [YNABClientError] with a message containing the status in decimal and
    the text of the response body; when the transport fails, it raises
    [YNABClientError] with the message ["YNAB API request failed: "]
    followed by the description of the failure, which is not of the form its
    messages for HTTP statuses have. *)
Theorem failures_raise_client_error self call w :
  closed w = false →
  let out := run (Call.invoke upstream self call) w in
  ∃ request,
    out.2 = after_sending w request ∧
    (∀ response,
       upstream request = httpx.Responded response →
       (400 ≤ httpx.status_code response)%Z →
       ∃ msg,
         out.1 = Raise (YNABClientError msg) ∧
         contains msg (pretty (httpx.status_code response)) ∧
         contains msg (httpx.text response)) ∧
    (∀ description,
       upstream request = httpx.Failed description →
       ∃ msg,
         out.1 = Raise (YNABClientError msg) ∧
         msg = "YNAB API request failed: " +:+ description ∧
         contains msg description ∧
         String.prefix "YNAB API request failed with status" msg = false).
Proof.
  intros Hopen out. subst out.
  destruct (invoke_make_request self call) as [endpoint ->].
  rewrite make_request_run, Hopen. cbv zeta.
  exists (request_of self endpoint).
  destruct (upstream (request_of self endpoint)) as [r|d] eqn:Hup.
  - split; [|split].
    + by destruct (httpx.is_success _), (httpx.json r).
    + intros response [= <-] Hstatus.
      rewrite (status_400_not_success _ Hstatus). eexists. split; [done|]. split.
      * eapply contains_later; [done|]. by eapply contains_here.
      * eapply contains_end. by rewrite <-!(app_assoc' _ _ (httpx.text r)).
    + intros description [=].
  - split; [done|]. split; [intros ? [=]|].
    intros description [= <-]. eexists. split; [done|]. split; [done|].
    split; [by eapply contains_end|reflexivity].
Qed.

(** C6.  On an open client, [get_budget("last-used")] sends exactly one
    request, a GET whose target is [/budgets/last-used] with the sentinel
    as given and no query; when the upstream answers it with a 2xx status
    and a JSON body, the method returns that document. *)
Theorem get_budget_last_used self w :
  closed w = false →
  let out := run (ynab_client.get_budget upstream self "last-used") w in
  ∃ request,
    out.2 = after_sending w request ∧
    httpx.method request = "GET" ∧
    httpx.url request = "/budgets/last-used" ∧
    URL.path (httpx.url request) = "/budgets/last-used" ∧
    URL.query (httpx.url request) = None ∧
    URL.params (httpx.url request) = [] ∧
    (∀ response document,
       upstream request = httpx.Responded response →
       httpx.is_success (httpx.status_code response) = true →
       httpx.json response = httpx.Decoded document →
       out.1 = Return document).
Proof.
  intros Hopen out. subst out. unfold ynab_client.get_budget.
  rewrite make_request_run, Hopen. cbv zeta.
  exists (request_of self ("/budgets/" +:+ "last-used")).
  split; [by destruct (upstream _) as [r|]; [destruct (httpx.is_success _), (httpx.json r)|]|].
  repeat (split; [reflexivity|]).
  intros response document -> -> ->. reflexivity.
Qed.

Lemma transactions_params_filters since_date type_filter :
  ynab_client.transactions_params since_date type_filter =
  non_empty_filters since_date type_filter.
Proof. by destruct since_date as [[|??]|], type_filter as [[|??]|]. Qed.

Lemma transactions_endpoint_with_query budget_id since_date type_filter :
  ynab_client.transactions_endpoint budget_id since_date type_filter =
  URL.with_query ("/budgets/" +:+ budget_id +:+ "/transactions")
    (non_empty_filters since_date type_filter).
Proof.
  unfold ynab_client.transactions_endpoint.
  rewrite transactions_params_filters.
  by destruct (non_empty_filters since_date type_filter).
Qed.

Lemma non_empty_filters_keys since_date type_filter :
  Forall (λ kv, URL.plain_key kv.1) (non_empty_filters since_date type_filter).
Proof.
  destruct since_date as [[|??]|], type_filter as [[|??]|];
    repeat constructor; done.
Qed.

(** C5, amended.  On an open client, [get_transactions] sends exactly one
    request, a GET whose target is [/budgets/{budget_id}/transactions]
    followed by the query string of exactly the filters that were supplied
    with a non-empty value, [since_date] before [type]: nothing is appended
    when there is none, and read as a URL (for a [budget_id] and values
    free of URL delimiters) the target has that path and exactly those
    query parameters, so that an absent or empty filter does not appear in
    it. *)
Theorem get_transactions_request self budget_id since_date type_filter w :
  closed w = false →
  let out :=
    run (ynab_client.get_transactions upstream self
           budget_id since_date type_filter) w in
  let path := "/budgets/" +:+ budget_id +:+ "/transactions" in
  let filters := non_empty_filters since_date type_filter in
  ∃ request,
    out.2 = after_sending w request ∧
    httpx.method request = "GET" ∧
    httpx.url request = URL.with_query path filters ∧
    (filters = [] → httpx.url request = path) ∧
    (URL.plain_segment budget_id →
     Forall (λ kv, URL.plain_value kv.2) filters →
     URL.path (httpx.url request) = path ∧
     URL.params (httpx.url request) = filters).
Proof.
  intros Hopen out path filters. subst out.
  unfold ynab_client.get_transactions.
  rewrite make_request_run, Hopen, transactions_endpoint_with_query.
  fold path filters. cbv zeta.
  exists (request_of self (URL.with_query path filters)).
  split; [by destruct (upstream _) as [r|]; [destruct (httpx.is_success _), (httpx.json r)|]|].
  split; [done|]. split; [done|]. split; [by intros ->|].
  intros [Hquestion Hhash] Hvalues. simpl.
  apply read_with_query.
  - subst path. split; rewrite !occurs_app, ?Hquestion, ?Hhash; reflexivity.
  - pose proof (non_empty_filters_keys since_date type_filter) as Hkeys.
    fold filters in Hkeys. revert Hkeys Hvalues.
    rewrite !Forall_forall. naive_solver.
Qed.

(** C8, amended.  Every request a method of a client built by [__init__]
    sends is a GET to the configured base URL that carries the two headers
    the client configures, [Authorization] with ["Bearer "] followed by the
    configured token and [Content-Type] with [application/json], no
    [Accept] header of the client's own, and a timeout of 30 seconds; on an
    open client each call sends exactly one. *)
Theorem requests_are_bearer_authenticated_gets config w0 self w1 call w :
  run (ynab_client.__init__ config) w0 = (Return self, w1) →
  let out := run (Call.invoke upstream self call) w in
  ∃ new,
    sent out.2 = sent w ++ new ∧
    (closed w = false → length new = 1) ∧
    Forall
      (λ request,
         httpx.method request = "GET" ∧
         httpx.base_url request = config.ynab_base_url config ∧
         httpx.headers request !! "Authorization" =
           Some ("Bearer " +:+ config.ynab_token config) ∧
         httpx.headers request !! "Content-Type" = Some "application/json" ∧
         httpx.headers request !! "Accept" = None ∧
         dom (httpx.headers request) = {[ "Authorization"; "Content-Type" ]} ∧
         httpx.timeout request = 30%Z)
      new.
Proof.
  intros [= <- _] out. subst out.
  destruct (invoke_make_request
              {| ynab_client.config := config;
                 ynab_client._client :=
                   {| httpx.client_base_url := config.ynab_base_url config;
                      httpx.client_headers := ynab_client.session_headers config;
                      httpx.client_timeout := 30 |} |} call) as [endpoint ->].
  rewrite make_request_run.
  destruct (closed w) eqn:Hclosed.
  { exists []. simpl. rewrite app_nil_r. by repeat split. }
  cbv zeta. eexists [_]. split; [|split; [done|]].
  - by destruct (upstream _) as [r|]; [destruct (httpx.is_success _), (httpx.json r)|].
  - constructor; [|constructor]. simpl. unfold ynab_client.session_headers.
    repeat split; done.
Qed.

(** C10.  An empty string given for an optional filter is the same call as
    one without the filter: for [since_date] and [type_filter] of
    [get_transactions], and for [since_date] of the listings by account,
    category and payee; the parameter is not among those written into the
    request. *)
Theorem empty_filter_is_absent self budget_id resource_id since_date type_filter :
  ynab_client.get_transactions upstream self budget_id (Some EmptyString) type_filter =
    ynab_client.get_transactions upstream self budget_id None type_filter ∧
  ynab_client.get_transactions upstream self budget_id since_date (Some EmptyString) =
    ynab_client.get_transactions upstream self budget_id since_date None ∧
  ynab_client.get_transactions_by_account upstream self budget_id resource_id (Some EmptyString) =
    ynab_client.get_transactions_by_account upstream self budget_id resource_id None ∧
  ynab_client.get_transactions_by_category upstream self budget_id resource_id (Some EmptyString) =
    ynab_client.get_transactions_by_category upstream self budget_id resource_id None ∧
  ynab_client.get_transactions_by_payee upstream self budget_id resource_id (Some EmptyString) =
    ynab_client.get_transactions_by_payee upstream self budget_id resource_id None ∧
  ("since_date" ∉ (ynab_client.transactions_params (Some EmptyString) type_filter).*1) ∧
  ("type" ∉ (ynab_client.transactions_params since_date (Some EmptyString)).*1) ∧
  (∀ endpoint,
     ynab_client.with_since_date endpoint (Some EmptyString) = endpoint).
Proof.
  repeat split; try reflexivity.
  - destruct type_filter as [[|??]|]; by apply (bool_decide_unpack _).
  - destruct since_date as [[|??]|]; by apply (bool_decide_unpack _).
Qed.

End Gateway.

(** ** Computations that do not look at the request log *)

Lemma oblivious_ret {A} (a : A) : oblivious (mret a).
Proof. by intros w w' Hw. Qed.

Lemma oblivious_raise {A} e : oblivious (@raise A e).
Proof. by intros w w' Hw. Qed.

Lemma oblivious_lift {A} (r : Result A) : oblivious (lift r).
Proof. by intros w w' Hw. Qed.

Lemma oblivious_bind {A B} (m : M A) (f : A → M B) :
  oblivious m → (∀ a, oblivious (f a)) → oblivious (m ≫= f).
Proof.
  intros Hm Hf w w' Hw. unfold run, mbind, M_bind.
  destruct (Hm w w' Hw) as [Hresult Hclosed]. unfold run in *.
  destruct (m w) as [[a|e] w1], (m w') as [[a'|e'] w1']; simplify_eq/=;
    [by apply Hf|done].
Qed.

Lemma oblivious_handle {A} (clauses : list (ExceptionClass * (Exception → M A))) e :
  Forall (λ clause, ∀ e, oblivious (clause.2 e)) clauses →
  oblivious (handle clauses e).
Proof.
  induction 1 as [|[cls handler] clauses Hhandler _ IH]; simpl.
  - apply oblivious_raise.
  - destruct (isinstance e cls); [apply Hhandler|apply IH].
Qed.

Lemma oblivious_try_except {A} (body : M A) clauses :
  oblivious body →
  Forall (λ clause, ∀ e, oblivious (clause.2 e)) clauses →
  oblivious (try_except body clauses).
Proof.
  intros Hbody Hclauses w w' Hw. unfold run, try_except.
  destruct (Hbody w w' Hw) as [Hresult Hclosed]. unfold run in *.
  destruct (body w) as [[a|e] w1], (body w') as [[a'|e'] w1']; simplify_eq/=;
    [done|by apply oblivious_handle].
Qed.

Lemma oblivious_with_exit {A} exit (body : M A) :
  oblivious exit → oblivious body → oblivious (with_exit exit body).
Proof.
  intros Hexit Hbody w w' Hw. unfold run, with_exit.
  destruct (Hbody w w' Hw) as [Hresult Hclosed]. unfold run in *.
  destruct (body w) as [r w1], (body w') as [r' w1']; simplify_eq/=.
  destruct (Hexit w1 w1' Hclosed) as [Hresult' Hclosed']. unfold run in *.
  by destruct (exit w1) as [[[]|e] w2], (exit w1') as [[[]|e'] w2'];
    simplify_eq/=.
Qed.

Lemma oblivious_close : oblivious httpx_client.close.
Proof. by intros w w' Hw. Qed.

Lemma oblivious_getitem arguments key : oblivious (main.getitem arguments key).
Proof.
  unfold main.getitem.
  destruct (arguments !! key); [apply oblivious_ret|apply oblivious_raise].
Qed.

Create HintDb oblivious.

#[local] Hint Resolve oblivious_ret oblivious_raise oblivious_lift
  oblivious_close oblivious_getitem : oblivious.
#[local] Hint Resolve oblivious_bind oblivious_with_exit : oblivious.

(** ** The server *)
Section Server.

Variable upstream : httpx.Request → httpx.Outcome.
Variable json_dumps : JSON → nat → string.

Lemma oblivious_make_request self endpoint :
  oblivious (ynab_client._make_request upstream self endpoint).
Proof.
  intros w w' Hw. rewrite !make_request_run, <-Hw.
  destruct (closed w) eqn:Hclosed; [simpl; split; congruence|]. cbv zeta.
  assert (∀ request, closed (after_sending w request) =
                     closed (after_sending w' request)) as Hafter.
  { intros request. simpl. congruence. }
  destruct (upstream _) as [r|]; [|split; [done|apply Hafter]].
  destruct (httpx.is_success _); [|split; [done|apply Hafter]].
  destruct (httpx.json r); (split; [done|apply Hafter]).
Qed.

Lemma oblivious_invoke self call : oblivious (Call.invoke upstream self call).
Proof.
  destruct (invoke_make_request upstream self call) as [endpoint ->].
  apply oblivious_make_request.
Qed.

(** A request leaves the session as it found it. *)
Lemma invoke_keeps_session self call w :
  closed (run (Call.invoke upstream self call) w).2 = closed w.
Proof.
  destruct (invoke_make_request upstream self call) as [endpoint ->].
  rewrite make_request_run. destruct (closed w) eqn:Hclosed; [done|].
  cbv zeta. destruct (upstream _) as [r|]; [|done].
  destruct (httpx.is_success _); [|done]. by destruct (httpx.json r).
Qed.

Lemma oblivious_execute_tool client name arguments :
  oblivious (main._execute_tool upstream client name arguments).
Proof.
  unfold main._execute_tool.
  repeat match goal with
         | |- oblivious (if ?b then _ else _) => destruct b
         end;
    repeat first
      [ apply oblivious_raise
      | apply oblivious_getitem
      | apply (oblivious_invoke client Call.get_budgets)
      | apply oblivious_make_request
      | apply oblivious_bind; [|intros ?] ].
Qed.

Lemma prefix_app p s : String.prefix p (p +:+ s) = true.
Proof.
  induction p as [|a p IH]; [by destruct s|].
  rewrite app_cons. simpl. by destruct (ascii_dec a a).
Qed.

(** [call_tool] never raises: it returns one text item, which is the
    serialized result or a message under one of the two prefixes. *)
Lemma call_tool_returns_text environ name arguments w :
  ∃ text w',
    run (main.call_tool upstream json_dumps environ name arguments) w =
      (Return [mcp.mkTextContent "text" text], w') ∧
    ((∃ document, text = main.format_response json_dumps document) ∨
     String.prefix "Error: " text = true ∨
     String.prefix "Configuration Error: " text = true).
Proof.
  unfold run, main.call_tool, try_except, main.get_ynab_client, lift,
    ynab_client.__init__, ynab_client.__enter__, ynab_client.__exit__,
    ynab_client.close, httpx_client.Client, httpx_client.close, with_exit,
    mbind, M_bind, mret, M_ret.
  destruct (config.get_config environ) as [config|e]; simpl.
  - destruct (main._execute_tool _ _ _ _ _) as [[document|e] w1]; simpl.
    + eauto 6.
    + destruct e; simpl; eauto 7 using prefix_app.
  - destruct e; simpl; eauto 7 using prefix_app.
Qed.

(** A name outside the registry falls through every [case]. *)
Lemma unknown_tool_raises client name arguments :
  name ∉ map mcp.name main.list_tools →
  main._execute_tool upstream client name arguments =
  raise (ValueError ("Unknown tool: " +:+ name)).
Proof.
  intros Hunknown. unfold main._execute_tool.
  repeat match goal with
         | |- context [String.eqb name ?known] =>
             destruct (String.eqb_spec name known) as [->|_];
             [exfalso; apply Hunknown; by apply (bool_decide_unpack _)|]
         end.
  reflexivity.
Qed.

(** C1 (the code departs from the claim).  With a credential configured,
    calling a tool whose name is not in the registry returns the text
    ["Configuration Error: Unknown tool: "] followed by the name, and sends
    nothing: the [ValueError] raised for the unknown name is handled by the
    clause written for the missing credential, so the reply carries the
    prefix [Configuration Error: ] where the claim has [Error: ]. *)
Theorem unknown_tool_is_reported_as_configuration_error
    environ token name arguments w :
  environ !! "YNAB_TOKEN" = Some token →
  token ≠ EmptyString →
  name ∉ map mcp.name main.list_tools →
  run (main.call_tool upstream json_dumps environ name arguments) w =
  (Return [mcp.mkTextContent "text"
             ("Configuration Error: Unknown tool: " +:+ name)],
   {| closed := true; sent := sent w |}).
Proof.
  intros Htoken Hnonempty Hunknown.
  unfold run, main.call_tool, try_except, main.get_ynab_client, lift,
    config.get_config, config.from_env, ynab_client.__init__,
    ynab_client.__enter__, ynab_client.__exit__, ynab_client.close,
    httpx_client.Client, httpx_client.close, with_exit,
    mbind, M_bind, mret, M_ret.
  rewrite Htoken.
  destruct (String.eqb_spec token EmptyString) as [->|_]; [done|]. simpl.
  by rewrite unknown_tool_raises.
Qed.

Lemma make_request_never_KeyError self endpoint w key :
  (run (ynab_client._make_request upstream self endpoint) w).1 ≠
  Raise (KeyError key).
Proof.
  rewrite make_request_run. destruct (closed w); [done|]. cbv zeta.
  destruct (upstream _) as [r|]; [|done].
  destruct (httpx.is_success _); [|done]. by destruct (httpx.json r).
Qed.

Lemma make_request_not_KeyError self endpoint w key v :
  run (ynab_client._make_request upstream self endpoint) w ≠
  (Raise (KeyError key), v).
Proof.
  intros Heq. apply (make_request_never_KeyError self endpoint w key).
  by rewrite Heq.
Qed.

(** Looking up one required argument, then going on. *)
Lemma run_getitem {A} arguments key (k : string → M A) w :
  run (main.getitem arguments key ≫= k) w =
  match arguments !! key with
  | Some value => run (k value) w
  | None => (Raise (KeyError key), w)
  end.
Proof.
  unfold run, main.getitem, mbind, M_bind.
  by destruct (arguments !! key).
Qed.

(** The gateway call a dispatch goal ends in. *)
Ltac dispatched_call client :=
  lazymatch goal with
  | |- context [ynab_client.get_budgets _ client] => exists Call.get_budgets
  | |- context [ynab_client.get_budget _ client ?b] => exists (Call.get_budget b)
  | |- context [ynab_client.get_budget_settings _ client ?b] =>
      exists (Call.get_budget_settings b)
  | |- context [ynab_client.get_accounts _ client ?b] => exists (Call.get_accounts b)
  | |- context [ynab_client.get_account _ client ?b ?a] =>
      exists (Call.get_account b a)
  | |- context [ynab_client.get_categories _ client ?b] =>
      exists (Call.get_categories b)
  | |- context [ynab_client.get_category _ client ?b ?c] =>
      exists (Call.get_category b c)
  | |- context [ynab_client.get_payees _ client ?b] => exists (Call.get_payees b)
  | |- context [ynab_client.get_payee _ client ?b ?p] =>
      exists (Call.get_payee b p)
  | |- context [ynab_client.get_transactions _ client ?b ?s ?t] =>
      exists (Call.get_transactions b s t)
  | |- context [ynab_client.get_transaction _ client ?b ?x] =>
      exists (Call.get_transaction b x)
  | |- context [ynab_client.get_transactions_by_account _ client ?b ?a ?s] =>
      exists (Call.get_transactions_by_account b a s)
  | |- context [ynab_client.get_transactions_by_category _ client ?b ?c ?s] =>
      exists (Call.get_transactions_by_category b c s)
  | |- context [ynab_client.get_transactions_by_payee _ client ?b ?p ?s] =>
      exists (Call.get_transactions_by_payee b p s)
  | |- context [ynab_client.get_months _ client ?b] => exists (Call.get_months b)
  | |- context [ynab_client.get_month _ client ?b ?m] =>
      exists (Call.get_month b m)
  | |- context [ynab_client.get_scheduled_transactions _ client ?b] =>
      exists (Call.get_scheduled_transactions b)
  | |- context [ynab_client.get_scheduled_transaction _ client ?b ?x] =>
      exists (Call.get_scheduled_transaction b x)
  end.

(** Membership in a list written out. *)
Ltac listed :=
  repeat match goal with
         | H : _ ∈ [] |- _ => by apply elem_of_nil in H
         | H : _ ∈ _ :: _ |- _ => apply elem_of_cons in H as [->|H]
         end.

(** One leaf of the case analysis of a dispatch: every required argument
    has been looked up, and either all were found or one was missing. *)
Ltac dispatch_leaf client :=
  split;
  [ split;
    [ intros [key Hkey];
      first [ by apply make_request_not_KeyError in Hkey
            | eexists; split; [|eassumption]; by repeat constructor ]
    | intros (parameter & Hparameter & Hmissing);
      first [ by eexists | listed; congruence ] ]
  | intros Hall;
    first
      [ split;
        [ intros key; apply make_request_never_KeyError
        | dispatched_call client;
          split; [reflexivity|]; split; [by repeat constructor|reflexivity] ]
      | exfalso;
        match goal with
        | H : ?arguments !! ?k = None |- _ =>
            destruct (Hall k ltac:(by repeat constructor)) as [? ?]; congruence
        end ] ].

(** C3.  For a tool of the registry, dispatch raises [KeyError] with the
    world untouched, hence before any request, exactly when one of the
    parameters the tool declares required is missing from the arguments;
    when all are present no [KeyError] is raised and dispatch is the call
    of the gateway method of the same name on the values found in the
    arguments. *)
Theorem missing_required_parameter tool client arguments w :
  tool ∈ main.list_tools →
  let out :=
    run (main._execute_tool upstream client (mcp.name tool) arguments) w in
  ((∃ key, out = (Raise (KeyError key), w)) ↔
   (∃ parameter,
      parameter ∈ mcp.required (mcp.inputSchema tool) ∧
      arguments !! parameter = None)) ∧
  ((∀ parameter,
      parameter ∈ mcp.required (mcp.inputSchema tool) →
      is_Some (arguments !! parameter)) →
   (∀ key, out.1 ≠ Raise (KeyError key)) ∧
   ∃ call,
     Call.name call = mcp.name tool ∧
     Forall (λ actual, arguments !! actual.1 = actual.2) (Call.actuals call) ∧
     out = run (Call.invoke upstream client call) w).
Proof.
  intros Hin out. subst out.
  apply list_elem_of_In in Hin. simpl in Hin.
  repeat (destruct Hin as [<-|Hin]); [..|done];
    cbn [mcp.name mcp.inputSchema mcp.required];
    unfold main._execute_tool;
    cbn [String.eqb Ascii.eqb Bool.eqb];
    repeat (rewrite ?run_getitem;
            match goal with
            | |- context [match arguments !! ?k with
                          | Some _ => _ | None => _ end] =>
                destruct (arguments !! k) eqn:?; cbv beta iota
            end);
    dispatch_leaf client.
Qed.

(** The reply of [call_tool] does not depend on the world it starts
    from: each call builds its own client. *)
Lemma call_tool_reply_independent environ name arguments w w' :
  (run (main.call_tool upstream json_dumps environ name arguments) w).1 =
  (run (main.call_tool upstream json_dumps environ name arguments) w').1.
Proof.
  unfold main.call_tool.
  match goal with
  | |- context [try_except (_ ≫= ?k) ?clauses] =>
      set (rest := k); set (handlers := clauses)
  end.
  assert (∀ manager, oblivious (rest manager)) as Hrest.
  { intros manager. subst rest. simpl.
    auto using oblivious_execute_tool with oblivious. }
  assert (∀ e v v', (handle handlers e v).1 = (handle handlers e v').1)
    as Hhandlers.
  { intros e v v'. by destruct e. }
  unfold run, try_except, main.get_ynab_client, lift, ynab_client.__init__,
    httpx_client.Client, mbind, M_bind, mret, M_ret.
  destruct (config.get_config environ) as [config|e]; simpl;
    [|apply Hhandlers].
  match goal with
  | |- context [rest ?manager {| closed := false; sent := sent w |}] =>
      destruct (Hrest manager {| closed := false; sent := sent w |}
                  {| closed := false; sent := sent w' |} eq_refl) as [Hsame _];
      unfold run in Hsame;
      destruct (rest manager {| closed := false; sent := sent w |}) as [[reply|e] v],
               (rest manager {| closed := false; sent := sent w' |}) as [[reply'|e'] v']
  end; simplify_eq/=; [done|apply Hhandlers].
Qed.


End Server.

(** ** Configuration *)

(** Building the client: the configuration is read first, then the library
    has its say. *)
Lemma get_ynab_client_run refusal environ w :
  run (checked.get_ynab_client refusal environ) w =
  match environ !! "YNAB_TOKEN" with
  | None => (Raise (ValueError token_required), w)
  | Some token =>
      if String.eqb token EmptyString then
        (Raise (ValueError token_required), w)
      else
        match refusal (base_url_of environ) (headers_for token) with
        | Some e => (Raise e, w)
        | None =>
            (Return (client_for token (base_url_of environ)),
             {| closed := false; sent := sent w |})
        end
  end.
Proof.
  unfold run, checked.get_ynab_client, lift, config.get_config,
    config.from_env, checked.__init__, checked.Client, mbind, M_bind.
  destruct (environ !! "YNAB_TOKEN") as [token|]; [|done].
  destruct (String.eqb token EmptyString); [done|].
  fold (base_url_of environ). cbn [config.ynab_base_url].
  change (ynab_client.session_headers _) with (headers_for token).
  by destruct (refusal (base_url_of environ) (headers_for token)).
Qed.

(** C7, as the code has it.  Building the client from the environment
    raises the configuration error of the missing credential, before
    anything else happens, when [YNAB_TOKEN] is unset or empty.  With a
    non-empty token the HTTP library is asked for a client bound to the
    base URL and to the headers that carry the token, and what it does
    decides: when it refuses them, its exception is raised and nothing
    else happens; when it does not, the client comes back configured with
    that token, its session open.  So a client is returned exactly when
    the token is not empty and the library accepts the base URL and the
    headers. *)
Theorem client_construction refusal environ w :
  let out := run (checked.get_ynab_client refusal environ) w in
  (environ !! "YNAB_TOKEN" = None ∨
   environ !! "YNAB_TOKEN" = Some EmptyString →
   out = (Raise (ValueError token_required), w)) ∧
  (∀ token,
     environ !! "YNAB_TOKEN" = Some token → token ≠ EmptyString →
     (∀ e,
        refusal (base_url_of environ) (headers_for token) = Some e →
        out = (Raise e, w)) ∧
     (refusal (base_url_of environ) (headers_for token) = None →
      ∃ client,
        out = (Return client, {| closed := false; sent := sent w |}) ∧
        config.ynab_token (ynab_client.config client) = token ∧
        httpx.client_headers (ynab_client._client client) !! "Authorization" =
          Some ("Bearer " +:+ token))) ∧
  ((∃ client, out.1 = Return client) ↔
   (∃ token,
      environ !! "YNAB_TOKEN" = Some token ∧ token ≠ EmptyString ∧
      refusal (base_url_of environ) (headers_for token) = None)).
Proof.
  cbv zeta. rewrite get_ynab_client_run.
  destruct (environ !! "YNAB_TOKEN") as [token|] eqn:Htoken.
  2: { split; [done|]. split; [by intros token [=]|].
       split; [by intros [client [=]]|by intros (token & [=] & _)]. }
  destruct (String.eqb_spec token EmptyString) as [->|Hnonempty].
  { split; [done|]. split; [by intros token [= <-]|].
    split; [by intros [client [=]]|by intros (token & [= <-] & ? & _)]. }
  split; [by intros [[=]|[= ->]]|].
  destruct (refusal (base_url_of environ) (headers_for token))
    as [e|] eqn:Hrefusal.
  - split.
    + intros ? [= <-] _. rewrite Hrefusal.
      split; [by intros ? [= <-]|by intros [=]].
    + split; [by intros [client [=]]|].
      intros (? & [= <-] & _ & Haccepted). by rewrite Hrefusal in Haccepted.
  - split.
    + intros ? [= <-] _. rewrite Hrefusal.
      split; [by intros ? [=]|]. intros _. by eexists.
    + split; [intros _; by exists token|by eexists].
Qed.

(** ** The tool registry *)

(** C2.  [list_tools] returns the eighteen descriptors of the table, in its
    order: each declares exactly the required and the optional parameters
    listed, every parameter has type [string], the [type] filter of
    [get_transactions] alone is restricted, to [uncategorized] and
    [unapproved], the required parameters are among the properties, and no
    tool name occurs twice. *)
Theorem list_tools_matches_table :
  map declared main.list_tools = tool_table ∧
  length main.list_tools = 18 ∧
  NoDup (map mcp.name main.list_tools) ∧
  Forall
    (λ tool,
       let schema := mcp.inputSchema tool in
       mcp.schema_type schema = "object" ∧
       NoDup (mcp.properties schema).*1 ∧
       Forall (λ parameter, parameter ∈ (mcp.properties schema).*1)
         (mcp.required schema) ∧
       Forall (λ property, mcp.property_type property.2 = "string")
         (mcp.properties schema))
    main.list_tools.
Proof.
  split; [reflexivity|]. split; [reflexivity|]. split.
  - by apply (bool_decide_unpack _).
  - apply Forall_forall. intros tool Hin.
    apply list_elem_of_In in Hin. simpl in Hin.
    repeat (destruct Hin as [<-|Hin]); [..|done];
      cbv zeta; simpl; repeat split; by apply (bool_decide_unpack _).
Qed.

(** ** The statements at concrete inputs *)

Example reply_with_budgets :
  Sample.reply "get_budgets" ∅ Sample.environ = Return ["{...}"].
Proof. reflexivity. Qed.

Example reply_without_token :
  Sample.reply "get_budgets" ∅ ∅ =
  Return ["Configuration Error: YNAB_TOKEN environment variable is required. Please set it to your YNAB personal access token."].
Proof. reflexivity. Qed.

Example reply_to_missing_argument :
  Sample.reply "get_budget" ∅ Sample.environ = Return ["Error: 'budget_id'"].
Proof. reflexivity. Qed.

Example reply_to_http_error :
  Sample.reply "get_budget" {[ "budget_id" := "b1" ]} Sample.environ =
  Return ["Error: YNAB API request failed with status 404: no such budget"].
Proof. reflexivity. Qed.

Example reply_to_transport_failure :
  Sample.reply "get_month" {[ "budget_id" := "b1"; "month" := "2024-01-01" ]}
    Sample.environ =
  Return ["Error: YNAB API request failed: Connection refused"].
Proof. reflexivity. Qed.

(** A 2xx answer whose body is not JSON: [json.JSONDecodeError] is a
    [ValueError], and the reply is labelled as a configuration error
    too. *)
Example reply_to_undecodable_body :
  Sample.reply "get_budget" {[ "budget_id" := "b2" ]} Sample.environ =
  Return ["Configuration Error: Expecting value: line 1 column 1 (char 0)"].
Proof. reflexivity. Qed.

Example transactions_endpoint_with_both_filters :
  ynab_client.transactions_endpoint "b1" (Some "2024-01-01") (Some "unapproved") =
  "/budgets/b1/transactions?since_date=2024-01-01&type=unapproved".
Proof. reflexivity. Qed.

(** [__init__] on the sample configuration builds the sample client. *)
Lemma sample_client_is_built :
  run (ynab_client.__init__ Sample.config) Sample.world =
  (Return Sample.client, Sample.world).
Proof. reflexivity. Qed.

(** An unknown tool, with the credential set. *)
Lemma unknown_tool_is_reported_as_configuration_error_witness :
  run (main.call_tool Sample.upstream Sample.json_dumps Sample.environ
         "unknown_tool" ∅) Sample.world =
  (Return [mcp.mkTextContent "text"
             "Configuration Error: Unknown tool: unknown_tool"],
   {| closed := true; sent := [] |}).
Proof.
  apply (unknown_tool_is_reported_as_configuration_error Sample.upstream
           Sample.json_dumps Sample.environ "secret-token");
    [reflexivity|done|by apply (bool_decide_unpack _)].
Defined.

(** [get_account] without its [account_id]. *)
Lemma missing_required_parameter_witness :
  ∃ key,
    run (main._execute_tool Sample.upstream Sample.client "get_account"
           {[ "budget_id" := "b1" ]}) Sample.world =
    (Raise (KeyError key), Sample.world).
Proof.
  pose (tool := mcp.mkTool "get_account" "Get a single account by ID"
    (mcp.mkSchema "object"
       [("budget_id", mcp.mkProperty "string" "The budget ID or 'last-used'" None);
        ("account_id", mcp.mkProperty "string" "The account ID" None)]
       ["budget_id"; "account_id"])).
  assert (tool ∈ main.list_tools) as Hin by (by repeat constructor).
  destruct (missing_required_parameter Sample.upstream tool Sample.client
              {[ "budget_id" := "b1" ]} Sample.world Hin) as [[_ Hmissing] _].
  apply Hmissing. exists "account_id". split; [by repeat constructor|reflexivity].
Defined.

(** [get_budget] on a budget the upstream answers 404 for. *)
Lemma failures_raise_client_error_witness :
  ∃ msg,
    (run (Call.invoke Sample.upstream Sample.client (Call.get_budget "b1"))
       Sample.world).1 = Raise (YNABClientError msg) ∧
    contains msg "404" ∧ contains msg "no such budget".
Proof.
  destruct (failures_raise_client_error Sample.upstream Sample.client
              (Call.get_budget "b1") Sample.world eq_refl)
    as (request & Hsent & Hstatus & _).
  assert (request = request_of Sample.client "/budgets/b1") as ->.
  { apply (f_equal sent) in Hsent. by injection Hsent as <-. }
  destruct (Hstatus _ eq_refl ltac:(done)) as (msg & Hmsg & Hcode & Hbody).
  by exists msg.
Defined.

(** [get_transactions] with a date and an empty type filter. *)
Lemma get_transactions_request_witness :
  ∃ request,
    sent (run (ynab_client.get_transactions Sample.upstream Sample.client
                 "b1" (Some "2024-01-01") (Some EmptyString)) Sample.world).2 =
      [request] ∧
    URL.path (httpx.url request) = "/budgets/b1/transactions" ∧
    URL.params (httpx.url request) = [("since_date", "2024-01-01")].
Proof.
  destruct (get_transactions_request Sample.upstream Sample.client
              "b1" (Some "2024-01-01") (Some EmptyString) Sample.world eq_refl)
    as (request & Hsent & _ & _ & _ & Hread).
  exists request. split; [by rewrite Hsent|].
  apply Hread; [by split|]. by repeat constructor.
Defined.

(** [get_budget] on the sentinel, answered with a JSON body. *)
Lemma get_budget_last_used_witness :
  (run (ynab_client.get_budget Sample.upstream Sample.client "last-used")
     Sample.world).1 = Return (JObject [("data", JNull)]).
Proof.
  destruct (get_budget_last_used Sample.upstream Sample.client Sample.world
              eq_refl) as (request & Hsent & _ & Hurl & _ & _ & _ & Hbody).
  assert (request = request_of Sample.client "/budgets/last-used") as ->.
  { apply (f_equal sent) in Hsent. by injection Hsent as <-. }
  by apply (Hbody _ _ eq_refl).
Defined.

(** Building the client with a token, and with an empty one. *)
Lemma client_construction_witness :
  (∃ client,
     (run (checked.get_ynab_client Sample_library.refusal Sample.environ)
        Sample.world).1 = Return client) ∧
  run (checked.get_ynab_client Sample_library.refusal
         {[ "YNAB_TOKEN" := EmptyString ]}) Sample.world =
  (Raise (ValueError token_required), Sample.world).
Proof.
  split.
  - destruct (client_construction Sample_library.refusal Sample.environ
                Sample.world) as (_ & _ & [_ Hreturns]).
    apply Hreturns. by exists "secret-token".
  - destruct (client_construction Sample_library.refusal
                {[ "YNAB_TOKEN" := EmptyString ]} Sample.world)
      as [Hfails _].
    apply Hfails. by right.
Defined.

(** The request the sample client sends for [get_budgets]. *)
Lemma requests_are_bearer_authenticated_gets_witness :
  ∃ request,
    sent (run (Call.invoke Sample.upstream Sample.client Call.get_budgets)
            Sample.world).2 = [request] ∧
    httpx.method request = "GET" ∧
    httpx.headers request !! "Authorization" = Some "Bearer secret-token" ∧
    httpx.timeout request = 30%Z.
Proof.
  destruct (requests_are_bearer_authenticated_gets Sample.upstream
              Sample.config Sample.world Sample.client Sample.world
              Call.get_budgets Sample.world sample_client_is_built)
    as (new & Hsent & Hone & Hall).
  destruct new as [|request [|]]; try (by specialize (Hone eq_refl)).
  apply Forall_cons in Hall as [(Hmethod & _ & Hauth & _ & _ & _ & Htimeout) _].
  by exists request.
Defined.


(** ** Where the code departs from the specification *)

(** Against C5 as stated: [get_transactions] called with the filter
    [since_date] supplied as the empty string sends a request without any
    query parameter, not one with the supplied filter. *)
Lemma supplied_empty_filter_is_not_attached :
  let out :=
    run (ynab_client.get_transactions Sample.upstream Sample.client
           "b1" (Some EmptyString) None) Sample.world in
  ¬ ∃ request,
      sent out.2 = [request] ∧
      URL.params (httpx.url request) = supplied_filters (Some EmptyString) None.
Proof. intros out (request & [= <-] & [=]). Qed.

(** Against C7 as stated: with the credential [té], which is not empty,
    building the client raises, and what it raises is a [ValueError]. *)
Lemma non_ascii_token_fails_construction :
  let out :=
    run (checked.get_ynab_client Sample_library.refusal
           Sample_library.accented_token) Sample.world in
  Sample_library.accented_token !! "YNAB_TOKEN" = Some "té" ∧
  (∃ e, out.1 = Raise e ∧ isinstance e cls_ValueError = true) ∧
  ¬ ∃ client, out.1 = Return client.
Proof.
  intros out. subst out. rewrite get_ynab_client_run.
  split; [done|]. split.
  - eexists. split; reflexivity.
  - by intros [client [=]].
Qed.

(** Against C8 as stated: the request a freshly built client sends for
    [get_budgets] carries no [Accept] header set to [application/json]. *)
Lemma accept_header_is_not_sent :
  let out :=
    run (client ← ynab_client.__init__ Sample.config;
         ynab_client.get_budgets Sample.upstream client) Sample.world in
  ¬ Forall
      (λ request, httpx.headers request !! "Accept" = Some "application/json")
      (sent out.2).
Proof. intros out [Haccept _]%Forall_cons. discriminate Haccept. Qed.

(** * Further properties of the code *)

(** ** What a gateway method can do *)
Section Methods.

Variable upstream : httpx.Request → httpx.Outcome.

(** The only exceptions [_make_request] lets out. *)
Lemma make_request_raises self endpoint w e :
  (run (ynab_client._make_request upstream self endpoint) w).1 = Raise e →
  (∃ msg, e = YNABClientError msg) ∨
  (∃ msg, e = JSONDecodeError msg) ∨
  (closed w = true ∧ e = RuntimeError client_closed).
Proof.
  rewrite make_request_run. destruct (closed w); [intros [= <-]; eauto|].
  cbv zeta. destruct (upstream _) as [r|]; [|intros [= <-]; eauto].
  destruct (httpx.is_success _); [|intros [= <-]; eauto].
  destruct (httpx.json r); intros [=]; subst; eauto.
Qed.


(** X2.  A 2xx response whose body is not JSON is not turned into the
    client error: on an open client the method sends its request and raises
    the [JSONDecodeError] of the body as it is. *)
Theorem undecodable_body_raises_decode_error self call w request response msg :
  closed w = false →
  (run (Call.invoke upstream self call) w).2 = after_sending w request →
  upstream request = httpx.Responded response →
  httpx.is_success (httpx.status_code response) = true →
  httpx.json response = httpx.Undecodable msg →
  (run (Call.invoke upstream self call) w).1 = Raise (JSONDecodeError msg).
Proof.
  destruct (invoke_make_request upstream self call) as [endpoint ->].
  rewrite make_request_run. intros -> Hsent Hup Hok Hjson. cbv zeta in *.
  assert (request = request_of self endpoint) as ->.
  { destruct (upstream (request_of self endpoint)) as [r|];
      [destruct (httpx.is_success _); [destruct (httpx.json r)|]|];
      apply (f_equal sent) in Hsent; simpl in Hsent;
      by apply app_inv_head in Hsent as [= <-]. }
  by rewrite Hup, Hok, Hjson.
Qed.

(** X3.  A closed client refuses every call: after [close], a method raises
    the [RuntimeError] of the closed session, not the client error, and
    sends nothing; closing again changes nothing. *)
Theorem closed_client_refuses self call w :
  run (ynab_client.close self ≫= λ _, Call.invoke upstream self call) w =
    (Raise (RuntimeError client_closed), {| closed := true; sent := sent w |}) ∧
  run (ynab_client.close self ≫= λ _, ynab_client.close self) w =
    run (ynab_client.close self) w.
Proof.
  split; [|reflexivity].
  destruct (invoke_make_request upstream self call) as [endpoint Hinvoke].
  unfold run, mbind, M_bind, ynab_client.close, httpx_client.close.
  rewrite Hinvoke.
  exact (make_request_run upstream self endpoint
           {| closed := true; sent := sent w |}).
Qed.

Lemma run_bind {A B} (m : M A) (f : A → M B) w :
  run (m ≫= f) w =
  match run m w with
  | (Return a, w') => run (f a) w'
  | (Raise e, w') => (Raise e, w')
  end.
Proof. reflexivity. Qed.

(** X4.  Calls on one open client go out in the order made: after a call
    that returns, a second call behaves as it would have alone and its
    request follows the first in the log; after a call that raises, the
    second is not made. *)
Theorem calls_in_sequence self first second w :
  closed w = false →
  let both :=
    run (Call.invoke upstream self first ≫= λ _,
         Call.invoke upstream self second) w in
  ∃ request request',
    (run (Call.invoke upstream self first) w).2 = after_sending w request ∧
    (run (Call.invoke upstream self second) w).2 = after_sending w request' ∧
    match (run (Call.invoke upstream self first) w).1 with
    | Return _ =>
        both.1 = (run (Call.invoke upstream self second) w).1 ∧
        sent both.2 = sent w ++ [request; request']
    | Raise e => both = (Raise e, after_sending w request)
    end.
Proof.
  intros Hopen both. subst both.
  destruct (invoke_make_request upstream self first) as [endpoint ->].
  destruct (invoke_make_request upstream self second) as [endpoint' ->].
  exists (request_of self endpoint), (request_of self endpoint').
  assert (∀ v, closed v = false →
            run (ynab_client._make_request upstream self endpoint') v =
            ((run (ynab_client._make_request upstream self endpoint') w).1,
             after_sending v (request_of self endpoint'))) as Hsecond.
  { intros v Hv. rewrite !make_request_run, Hv, Hopen. cbv zeta.
    destruct (upstream (request_of self endpoint')) as [r|]; [|done].
    destruct (httpx.is_success _); [|done]. by destruct (httpx.json r). }
  rewrite run_bind, (Hsecond w Hopen).
  rewrite (make_request_run upstream self endpoint w), Hopen. cbv zeta.
  destruct (upstream (request_of self endpoint)) as [r|]; [|done].
  destruct (httpx.is_success _); [|done].
  destruct (httpx.json r); [|done]. simpl.
  rewrite Hsecond by done. simpl. by rewrite <-app_assoc.
Qed.

End Methods.

(** ** What the dispatcher does with a call *)
Section Dispatch.

Variable upstream : httpx.Request → httpx.Outcome.
Variable json_dumps : JSON → nat → string.

(** Dispatch of a registered tool: the first required parameter missing
    from the arguments, in the order declared, is the [KeyError]; with none
    missing, dispatch is one use of the request primitive. *)
Lemma dispatch_known tool client arguments :
  tool ∈ main.list_tools →
  match first_missing arguments (mcp.required (mcp.inputSchema tool)) with
  | Some key =>
      main._execute_tool upstream client (mcp.name tool) arguments =
      raise (KeyError key)
  | None =>
      ∃ endpoint,
        main._execute_tool upstream client (mcp.name tool) arguments =
        ynab_client._make_request upstream client endpoint
  end.
Proof.
  intros Hin. apply list_elem_of_In in Hin. simpl in Hin.
  repeat (destruct Hin as [<-|Hin]); [..|done];
    cbn [mcp.name mcp.inputSchema mcp.required first_missing];
    unfold main._execute_tool;
    cbn [String.eqb Ascii.eqb Bool.eqb];
    unfold main.getitem;
    repeat match goal with
           | |- context [match arguments !! ?k with
                         | Some _ => _ | None => _ end] =>
               destruct (arguments !! k); cbv beta iota
           end;
    first [reflexivity | eexists; reflexivity].
Qed.

(** Dispatch of any name raises at once or is one use of the request
    primitive. *)
Lemma dispatch_cases client name arguments :
  (∃ e, main._execute_tool upstream client name arguments = raise e) ∨
  (∃ endpoint,
     main._execute_tool upstream client name arguments =
     ynab_client._make_request upstream client endpoint).
Proof.
  destruct (decide (name ∈ map mcp.name main.list_tools)) as [Hin|Hout].
  - apply list_elem_of_fmap in Hin as (tool & -> & Hin).
    pose proof (dispatch_known tool client arguments Hin) as Hknown.
    destruct (first_missing _ _); eauto.
  - left. eexists. by apply unknown_tool_raises.
Qed.

(** What [call_tool] does once the configuration is read, for a dispatch
    that raises at once. *)
Lemma call_tool_dispatch_raises environ token name arguments e w :
  environ !! "YNAB_TOKEN" = Some token →
  token ≠ EmptyString →
  main._execute_tool upstream (client_for token (base_url_of environ))
    name arguments = raise e →
  run (main.call_tool upstream json_dumps environ name arguments) w =
  (Return [mcp.mkTextContent "text"
             ((if isinstance e cls_YNABClientError then "Error: "
               else if isinstance e cls_ValueError then "Configuration Error: "
               else "Error: ") +:+ str e)],
   {| closed := true; sent := sent w |}).
Proof.
  intros Htoken Hnonempty Hraise.
  unfold run, main.call_tool, try_except, main.get_ynab_client, lift,
    config.get_config, config.from_env, ynab_client.__init__,
    ynab_client.__enter__, ynab_client.__exit__, ynab_client.close,
    httpx_client.Client, httpx_client.close, with_exit,
    mbind, M_bind, mret, M_ret.
  rewrite Htoken.
  destruct (String.eqb_spec token EmptyString) as [->|_]; [done|]. simpl.
  fold (base_url_of environ).
  change {| ynab_client.config := _; ynab_client._client := _ |}
    with (client_for token (base_url_of environ)).
  rewrite Hraise. by destruct e.
Qed.

(** What [call_tool] does once the configuration is read, for a dispatch
    that is one request. *)
Lemma call_tool_dispatch_requests environ token name arguments endpoint w :
  environ !! "YNAB_TOKEN" = Some token →
  token ≠ EmptyString →
  main._execute_tool upstream (client_for token (base_url_of environ))
    name arguments =
  ynab_client._make_request upstream (client_for token (base_url_of environ))
    endpoint →
  let request := request_of (client_for token (base_url_of environ)) endpoint in
  run (main.call_tool upstream json_dumps environ name arguments) w =
  (Return [mcp.mkTextContent "text" (reply_text json_dumps (upstream request))],
   {| closed := true; sent := sent w ++ [request] |}).
Proof.
  intros Htoken Hnonempty Hrequest request.
  unfold run, main.call_tool, try_except, main.get_ynab_client, lift,
    config.get_config, config.from_env, ynab_client.__init__,
    ynab_client.__enter__, ynab_client.__exit__, ynab_client.close,
    httpx_client.Client, httpx_client.close, with_exit,
    mbind, M_bind, mret, M_ret.
  rewrite Htoken.
  destruct (String.eqb_spec token EmptyString) as [->|_]; [done|]. simpl.
  fold (base_url_of environ).
  change {| ynab_client.config := _; ynab_client._client := _ |}
    with (client_for token (base_url_of environ)).
  rewrite Hrequest.
  pose proof (make_request_run upstream
                (client_for token (base_url_of environ)) endpoint
                {| closed := false; sent := sent w |}) as Hrun.
  unfold run in Hrun. rewrite Hrun. cbv zeta. fold request.
  unfold reply_text. simpl closed.
  destruct (upstream request) as [r|]; [|reflexivity].
  destruct (httpx.is_success _); [|reflexivity].
  by destruct (httpx.json r).
Qed.

(** What [call_tool] does once the configuration is read, for a dispatch
    that is one use of the request primitive, however that use ends. *)
Lemma call_tool_dispatch_renders environ token name arguments endpoint w :
  environ !! "YNAB_TOKEN" = Some token →
  token ≠ EmptyString →
  main._execute_tool upstream (client_for token (base_url_of environ))
    name arguments =
  ynab_client._make_request upstream (client_for token (base_url_of environ))
    endpoint →
  let request :=
    run (ynab_client._make_request upstream
           (client_for token (base_url_of environ)) endpoint)
      {| closed := false; sent := sent w |} in
  run (main.call_tool upstream json_dumps environ name arguments) w =
  (Return [mcp.mkTextContent "text" (reply_for json_dumps request.1)],
   {| closed := true; sent := sent request.2 |}).
Proof.
  intros Htoken Hnonempty Hrequest request. subst request.
  unfold run, main.call_tool, try_except, main.get_ynab_client, lift,
    config.get_config, config.from_env, ynab_client.__init__,
    ynab_client.__enter__, ynab_client.__exit__, ynab_client.close,
    httpx_client.Client, httpx_client.close, with_exit,
    mbind, M_bind, mret, M_ret.
  rewrite Htoken.
  destruct (String.eqb_spec token EmptyString) as [->|_]; [done|]. simpl.
  fold (base_url_of environ).
  change {| ynab_client.config := _; ynab_client._client := _ |}
    with (client_for token (base_url_of environ)).
  rewrite Hrequest.
  destruct (ynab_client._make_request _ _ _ _) as [[document|e] w'];
    [reflexivity|].
  by destruct e.
Qed.

(** A guarded computation depends on its first step through what that
    step does. *)
Lemma try_except_bind_agrees {A B} (first first' : M A) (rest : A → M B)
    clauses w :
  first' w = first w →
  try_except (first ≫= rest) clauses w = try_except (first' ≫= rest) clauses w.
Proof. intros Hsame. unfold try_except, mbind, M_bind. by rewrite Hsame. Qed.

(** When its first step raises, the clauses take over from there. *)
Lemma try_except_bind_raises {A B} (first : M A) (rest : A → M B)
    clauses e w w' :
  first w = (Raise e, w') →
  try_except (first ≫= rest) clauses w = handle clauses e w'.
Proof. intros Hraises. unfold try_except, mbind, M_bind. by rewrite Hraises. Qed.

(** Over the constructor that may refuse, [call_tool] does what it does
    over the other one when the library accepts the base URL and the
    headers. *)
Lemma call_tool_accepted refusal environ token name arguments w :
  environ !! "YNAB_TOKEN" = Some token →
  refusal (base_url_of environ) (headers_for token) = None →
  run (checked.call_tool refusal upstream json_dumps environ name arguments) w =
  run (main.call_tool upstream json_dumps environ name arguments) w.
Proof.
  intros Htoken Haccepted.
  pose proof (get_ynab_client_run refusal environ w) as Hchecked.
  rewrite Htoken, Haccepted in Hchecked.
  assert (run (main.get_ynab_client environ) w =
          run (checked.get_ynab_client refusal environ) w) as Hsame.
  { rewrite Hchecked.
    unfold run, main.get_ynab_client, lift, config.get_config,
      config.from_env, mbind, M_bind.
    rewrite Htoken. by destruct (String.eqb token EmptyString). }
  unfold run in *. unfold checked.call_tool, main.call_tool.
  by apply try_except_bind_agrees.
Qed.

(** X5.  With a credential, and a base URL and headers that the HTTP
    library accepts, and every required argument given, a call of a
    registered tool is one use of the request primitive on a session just
    opened, and however that use ends, the reply tells it: the serialized
    document if it returns one, and if it raises, the message of the
    exception under [Error: ] for a client error, under
    [Configuration Error: ] for any [ValueError], such as the decoder's for
    a body that is not JSON, and under [Error: ] for anything else.  The
    session is closed afterwards, and nothing is sent but what that use
    sends. *)
Theorem call_tool_replies_for_the_request refusal environ token tool
    arguments w :
  environ !! "YNAB_TOKEN" = Some token →
  token ≠ EmptyString →
  refusal (base_url_of environ) (headers_for token) = None →
  tool ∈ main.list_tools →
  first_missing arguments (mcp.required (mcp.inputSchema tool)) = None →
  ∃ endpoint,
    main._execute_tool upstream (client_for token (base_url_of environ))
      (mcp.name tool) arguments =
    ynab_client._make_request upstream (client_for token (base_url_of environ))
      endpoint ∧
    ∀ result w',
      run (ynab_client._make_request upstream
             (client_for token (base_url_of environ)) endpoint)
        {| closed := false; sent := sent w |} = (result, w') →
      run (checked.call_tool refusal upstream json_dumps environ
             (mcp.name tool) arguments) w =
      (Return [mcp.mkTextContent "text" (reply_for json_dumps result)],
       {| closed := true; sent := sent w' |}).
Proof.
  intros Htoken Hnonempty Haccepted Hin Hnone.
  pose proof (dispatch_known tool (client_for token (base_url_of environ))
                arguments Hin) as Hknown.
  rewrite Hnone in Hknown. destruct Hknown as [endpoint Hrequest].
  exists endpoint. split; [done|]. intros result w' Hends.
  rewrite (call_tool_accepted _ _ _ _ _ _ Htoken Haccepted).
  rewrite (call_tool_dispatch_renders _ _ _ _ _ w Htoken Hnonempty Hrequest).
  by rewrite Hends.
Qed.

(** Reading the configuration fails first. *)
Lemma call_tool_unconfigured environ name arguments w :
  environ !! "YNAB_TOKEN" = None ∨
  environ !! "YNAB_TOKEN" = Some EmptyString →
  run (main.call_tool upstream json_dumps environ name arguments) w =
  (Return [mcp.mkTextContent "text" ("Configuration Error: " +:+ token_required)],
   w).
Proof.
  unfold run, main.call_tool, try_except, main.get_ynab_client, lift,
    config.get_config, config.from_env, mbind, M_bind.
  by intros [->| ->].
Qed.

(** X6.  Without a credential, [YNAB_TOKEN] unset or empty, every call is
    answered with the same configuration error, whatever the tool name and
    the arguments, known or not; no client is built and nothing is sent. *)
Theorem call_tool_without_credential environ name arguments w :
  environ !! "YNAB_TOKEN" = None ∨
  environ !! "YNAB_TOKEN" = Some EmptyString →
  run (main.call_tool upstream json_dumps environ name arguments) w =
  (Return [mcp.mkTextContent "text" ("Configuration Error: " +:+ token_required)],
   w).
Proof. apply call_tool_unconfigured. Qed.

(** X7.  With a credential, and a base URL and headers that the HTTP
    library accepts, a call of a registered tool that lacks a required
    argument is answered with [Error: ] followed by the quoted name of the
    first parameter missing, in the order the tool declares them; nothing
    is sent, and the session is closed. *)
Theorem call_tool_missing_argument refusal environ token tool arguments key w :
  environ !! "YNAB_TOKEN" = Some token →
  token ≠ EmptyString →
  refusal (base_url_of environ) (headers_for token) = None →
  tool ∈ main.list_tools →
  first_missing arguments (mcp.required (mcp.inputSchema tool)) = Some key →
  run (checked.call_tool refusal upstream json_dumps environ
         (mcp.name tool) arguments) w =
  (Return [mcp.mkTextContent "text" ("Error: '" +:+ key +:+ "'")],
   {| closed := true; sent := sent w |}).
Proof.
  intros Htoken Hnonempty Haccepted Hin Hmissing.
  pose proof (dispatch_known tool (client_for token (base_url_of environ))
                arguments Hin) as Hknown.
  rewrite Hmissing in Hknown.
  rewrite (call_tool_accepted _ _ _ _ _ _ Htoken Haccepted).
  by rewrite (call_tool_dispatch_raises _ _ _ _ _ w Htoken Hnonempty Hknown).
Qed.

(** X8.  [call_tool] never raises and keeps its effects small: whatever
    the environment, the name, the arguments and the upstream, it returns
    exactly one item of type [text], sends at most one request, which it
    appends to those sent before, and, when a credential is configured,
    leaves the session closed. *)
Theorem call_tool_always_replies environ name arguments w :
  let out :=
    run (main.call_tool upstream json_dumps environ name arguments) w in
  ∃ text new,
    out.1 = Return [mcp.mkTextContent "text" text] ∧
    sent out.2 = sent w ++ new ∧
    length new ≤ 1 ∧
    (∀ token,
       environ !! "YNAB_TOKEN" = Some token → token ≠ EmptyString →
       closed out.2 = true).
Proof.
  intros out. subst out.
  destruct (environ !! "YNAB_TOKEN") as [token|] eqn:Htoken.
  2: { rewrite call_tool_unconfigured by auto.
       eexists _, []. split; [reflexivity|]. split; [by rewrite app_nil_r|].
       split; [simpl; lia|]. by intros ? [=]. }
  destruct (decide (token = EmptyString)) as [->|Hnonempty].
  { rewrite call_tool_unconfigured by auto.
    eexists _, []. split; [reflexivity|]. split; [by rewrite app_nil_r|].
    split; [simpl; lia|]. by intros ? [= <-]. }
  destruct (dispatch_cases (client_for token (base_url_of environ))
              name arguments) as [[e Hraise]|[endpoint Hrequest]].
  - rewrite (call_tool_dispatch_raises _ _ _ _ _ w Htoken Hnonempty Hraise).
    eexists _, []. split; [reflexivity|]. split; [by rewrite app_nil_r|].
    split; [simpl; lia|]. by intros.
  - rewrite (call_tool_dispatch_requests _ _ _ _ _ w Htoken Hnonempty Hrequest).
    eexists _, [_]. split; [reflexivity|]. split; [reflexivity|].
    split; [simpl; lia|]. by intros.
Qed.

(** X9.  The dispatcher knows exactly the tools of the registry: it raises
    the unknown-tool [ValueError] for a name if and only if no descriptor of
    [list_tools] has that name. *)
Theorem dispatch_knows_the_registry client name arguments w :
  (run (main._execute_tool upstream client name arguments) w).1 =
    Raise (ValueError ("Unknown tool: " +:+ name)) ↔
  name ∉ map mcp.name main.list_tools.
Proof.
  split.
  - intros Hraise Hin.
    apply list_elem_of_fmap in Hin as (tool & -> & Hin).
    pose proof (dispatch_known tool client arguments Hin) as Hknown.
    destruct (first_missing _ _) as [key|].
    + by rewrite Hknown in Hraise.
    + destruct Hknown as [endpoint Hrequest]. rewrite Hrequest in Hraise.
      by destruct (make_request_raises _ _ _ _ _ Hraise)
        as [[msg ?]|[[msg ?]|[_ ?]]].
  - intros Hout. by rewrite unknown_tool_raises.
Qed.

(** X17.  A base URL or a credential that the HTTP library refuses is
    reported like any other failure, before a session exists: whatever the
    tool and the arguments, the reply is the message of the library's
    exception, under [Configuration Error: ] when it is a [ValueError], as
    the [UnicodeEncodeError] for a token outside ASCII is, and under
    [Error: ] otherwise, as for the [InvalidURL] of a base URL that does not
    parse; nothing is sent. *)
Theorem call_tool_reports_refused_construction refusal environ token e name
    arguments w :
  environ !! "YNAB_TOKEN" = Some token →
  token ≠ EmptyString →
  refusal (base_url_of environ) (headers_for token) = Some e →
  run (checked.call_tool refusal upstream json_dumps environ name arguments) w =
  (Return [mcp.mkTextContent "text" (report e)], w).
Proof.
  intros Htoken Hnonempty Hrefused.
  pose proof (get_ynab_client_run refusal environ w) as Hbuild.
  rewrite Htoken, Hrefused in Hbuild.
  destruct (String.eqb_spec token EmptyString) as [->|_]; [done|].
  unfold run in *. unfold checked.call_tool.
  rewrite (try_except_bind_raises _ _ _ _ _ _ Hbuild).
  unfold report. by destruct e.
Qed.

End Dispatch.

(** ** Arguments, identifiers and targets *)
Section Targets.

Variable upstream : httpx.Request → httpx.Outcome.

(** X10.  The dispatcher reads the parameters a tool declares and no
    others: two argument mappings that agree on the properties of a
    registered tool's schema are dispatched to the same computation. *)
Theorem undeclared_arguments_are_ignored tool client arguments arguments' :
  tool ∈ main.list_tools →
  (∀ parameter,
     parameter ∈ (mcp.properties (mcp.inputSchema tool)).*1 →
     arguments !! parameter = arguments' !! parameter) →
  main._execute_tool upstream client (mcp.name tool) arguments =
  main._execute_tool upstream client (mcp.name tool) arguments'.
Proof.
  intros Hin. apply list_elem_of_In in Hin. simpl in Hin.
  repeat (destruct Hin as [<-|Hin]); [..|done]; intros Hagree;
    cbn [mcp.name mcp.inputSchema mcp.properties fmap list_fmap fst] in *;
    unfold main._execute_tool;
    cbn [String.eqb Ascii.eqb Bool.eqb];
    unfold main.getitem;
    repeat match goal with
           | |- context [arguments !! ?k] =>
               rewrite (Hagree k) by (by repeat constructor)
           end;
    reflexivity.
Qed.

(** X11.  Dispatch undoes the packing of a call: for every gateway method
    and actual arguments, dispatching the method's name with the arguments
    under the keys of the tool is the call of that method; an optional
    argument that is [None] is left out of the mapping. *)
Theorem dispatch_round_trip client call :
  main._execute_tool upstream client (Call.name call) (call_arguments call) =
  Call.invoke upstream client call.
Proof.
  destruct call as
    [ | | | | | | | | | ? [?|] [?|] | | ? ? [?|] | ? ? [?|] | ? ? [?|] | | | | ];
    reflexivity.
Qed.

Lemma with_since_date_with_query endpoint since_date :
  ynab_client.with_since_date endpoint since_date =
  URL.with_query endpoint (non_empty_filters since_date None).
Proof. by destruct since_date as [[|??]|]. Qed.

(** Every method requests its path, followed by the query string of its
    non-empty filters. *)
Lemma invoke_target self call :
  Call.invoke upstream self call =
  ynab_client._make_request upstream self
    (URL.with_query (call_path call) (call_filters call)).
Proof.
  destruct call; try reflexivity; unfold Call.invoke, call_path, call_filters.
  - unfold ynab_client.get_transactions.
    by rewrite transactions_endpoint_with_query.
  - unfold ynab_client.get_transactions_by_account.
    by rewrite with_since_date_with_query.
  - unfold ynab_client.get_transactions_by_category.
    by rewrite with_since_date_with_query.
  - unfold ynab_client.get_transactions_by_payee.
    by rewrite with_since_date_with_query.
Qed.

(** A path made of plain identifiers is plain. *)
Lemma call_path_plain call :
  Forall URL.plain_segment (call_identifiers call) →
  URL.plain_segment (call_path call).
Proof.
  destruct call; unfold call_identifiers, call_path; intros Hplain;
    repeat match goal with
           | H : Forall _ (_ :: _) |- _ => apply Forall_cons in H as [[? ?] H]
           end;
    split; rewrite ?occurs_app;
    repeat match goal with
           | H : URL.occurs _ _ = false |- _ => rewrite ?H; clear H
           end;
    reflexivity.
Qed.

(** X12.  On an open client every method sends one request whose target
    reads, as a URL, as the path of the method's resource, built from the
    identifiers as given, and the query parameters of exactly the non-empty
    filters of the call, for identifiers free of [?] and [#] and filter
    values free of [&] and [#]; only the four transaction listings ever
    carry a query. *)
Theorem requests_read_as_path_and_filters self call w :
  closed w = false →
  Forall URL.plain_segment (call_identifiers call) →
  Forall (λ filter, URL.plain_value filter.2) (call_filters call) →
  ∃ request,
    (run (Call.invoke upstream self call) w).2 = after_sending w request ∧
    URL.path (httpx.url request) = call_path call ∧
    URL.params (httpx.url request) = call_filters call.
Proof.
  intros Hopen Hids Hvalues. rewrite invoke_target.
  assert (Forall (λ kv, URL.plain_key kv.1 ∧ URL.plain_value kv.2)
            (call_filters call)) as Hfilters.
  { assert (Forall (λ kv, URL.plain_key kv.1) (call_filters call)) as Hkeys
      by (destruct call; first [apply non_empty_filters_keys|constructor]).
    revert Hkeys Hvalues. rewrite !Forall_forall. naive_solver. }
  destruct (read_with_query (call_path call) (call_filters call)
              (call_path_plain call Hids) Hfilters)
    as [Hreadpath Hreadparams].
  exists (request_of self (URL.with_query (call_path call) (call_filters call))).
  rewrite make_request_run, Hopen. cbv zeta.
  split; [by destruct (upstream _) as [r|];
            [destruct (httpx.is_success _), (httpx.json r)|]|].
  simpl httpx.url. by rewrite Hreadpath, Hreadparams.
Qed.

(** X13.  Filter values are written into the target as they are: a
    [since_date] that continues with [&type=] and a value is the same
    request as that date together with that type filter. *)
Theorem since_date_can_carry_a_type_filter self budget_id date type :
  date ≠ EmptyString →
  type ≠ EmptyString →
  ynab_client.get_transactions upstream self budget_id
    (Some (date +:+ "&type=" +:+ type)) None =
  ynab_client.get_transactions upstream self budget_id (Some date) (Some type).
Proof.
  intros Hdate Htype. unfold ynab_client.get_transactions. f_equal.
  destruct date as [|a date]; [done|]. destruct type as [|b type]; [done|].
  unfold ynab_client.transactions_endpoint, ynab_client.transactions_params,
    if_truthy.
  rewrite app_cons. simpl String.eqb. cbv beta iota zeta. simpl map. simpl join.
  cbn [app]. do 2 f_equal. all: by rewrite !app_assoc'.
Qed.

(** X14.  Identifiers are written into the target as they are: a
    [budget_id] that continues with [?] and more makes [get_budget] request
    the budget before the [?] with the rest as the query. *)
Theorem identifier_can_carry_a_query self budget_id query w :
  closed w = false →
  URL.plain_segment budget_id →
  URL.occurs "#"%char query = false →
  ∃ request,
    (run (ynab_client.get_budget upstream self (budget_id +:+ "?" +:+ query)) w).2 =
      after_sending w request ∧
    URL.path (httpx.url request) = "/budgets/" +:+ budget_id ∧
    URL.query (httpx.url request) = Some query.
Proof.
  intros Hopen [Hquestion Hhash] Hquery.
  exists (request_of self ("/budgets/" +:+ budget_id +:+ "?" +:+ query)).
  unfold ynab_client.get_budget. rewrite make_request_run, Hopen. cbv zeta.
  split; [by destruct (upstream _) as [r|];
            [destruct (httpx.is_success _), (httpx.json r)|]|].
  simpl httpx.url. unfold URL.path, URL.query.
  assert ("/budgets/" +:+ budget_id +:+ "?" +:+ query =
          ("/budgets/" +:+ budget_id) +:+ String "?"%char query) as ->
    by (by rewrite app_assoc').
  rewrite (before_absent "#").
  - rewrite before_app, after_app; [done| |];
      by rewrite occurs_app, Hquestion.
  - rewrite !occurs_app, Hhash. simpl. by rewrite Hquery.
Qed.

(** X15.  A [with] block over the client releases it on every way out:
    whether the body returns or raises, its result comes out unchanged,
    nothing is sent besides what the body sent, the session is closed, and
    a method called afterwards raises the [RuntimeError] of the closed
    session without sending. *)
Theorem with_block_closes_the_session {A} self (body : M A) call w :
  let out := run (with_exit (ynab_client.__exit__ self) body) w in
  out.1 = (run body w).1 ∧
  sent out.2 = sent (run body w).2 ∧
  closed out.2 = true ∧
  run (Call.invoke upstream self call) out.2 =
    (Raise (RuntimeError client_closed), out.2).
Proof.
  intros out. subst out.
  destruct (invoke_make_request upstream self call) as [endpoint ->].
  rewrite make_request_run.
  unfold run, with_exit, ynab_client.__exit__, ynab_client.close,
    httpx_client.close.
  by destruct (body w) as [r w'].
Qed.

End Targets.

(** ** The configuration *)

(** X16.  A configuration read from the environment never holds an empty
    token: [from_env] returns the token of [YNAB_TOKEN] as it is, with the
    base URL of [YNAB_BASE_URL] as it is when that variable is set, even to
    the empty string, and the default one otherwise; it raises the
    [ValueError] of the missing token exactly when [YNAB_TOKEN] is unset or
    empty, whatever [YNAB_BASE_URL] is. *)
Theorem from_env_reads_the_environment environ :
  match config.from_env environ with
  | Return config =>
      environ !! "YNAB_TOKEN" = Some (config.ynab_token config) ∧
      config.ynab_token config ≠ EmptyString ∧
      config.ynab_base_url config =
        match environ !! "YNAB_BASE_URL" with
        | Some base_url => base_url
        | None => "https://api.ynab.com/v1"
        end
  | Raise e =>
      e = ValueError token_required ∧
      (environ !! "YNAB_TOKEN" = None ∨
       environ !! "YNAB_TOKEN" = Some EmptyString)
  end.
Proof.
  unfold config.from_env.
  destruct (environ !! "YNAB_TOKEN") as [token|]; [|by auto].
  destruct (String.eqb_spec token EmptyString) as [->|Hne]; [by auto|].
  simpl. by destruct (environ !! "YNAB_BASE_URL").
Qed.

(** ** The further statements at concrete inputs *)


(** The page served for [/budgets/b2] is not JSON. *)
Lemma undecodable_body_raises_decode_error_witness :
  (run (Call.invoke Sample.upstream Sample.client (Call.get_budget "b2"))
     Sample.world).1 =
  Raise (JSONDecodeError "Expecting value: line 1 column 1 (char 0)").
Proof.
  apply (undecodable_body_raises_decode_error Sample.upstream Sample.client
           (Call.get_budget "b2") Sample.world
           (request_of Sample.client "/budgets/b2")
           {| httpx.status_code := 200; httpx.text := "<html>";
              httpx.json := httpx.Undecodable
                "Expecting value: line 1 column 1 (char 0)" |});
    reflexivity.
Defined.

(** [get_budgets], then [get_budget] on the sentinel. *)
Lemma calls_in_sequence_witness :
  sent (run (Call.invoke Sample.upstream Sample.client Call.get_budgets ≫= λ _,
             Call.invoke Sample.upstream Sample.client
               (Call.get_budget "last-used")) Sample.world).2 =
  [request_of Sample.client "/budgets";
   request_of Sample.client "/budgets/last-used"].
Proof.
  destruct (calls_in_sequence Sample.upstream Sample.client Call.get_budgets
              (Call.get_budget "last-used") Sample.world eq_refl)
    as (request & request' & Hfirst & Hsecond & Hboth).
  assert (request = request_of Sample.client "/budgets") as ->.
  { apply (f_equal sent) in Hfirst. by injection Hfirst as <-. }
  assert (request' = request_of Sample.client "/budgets/last-used") as ->.
  { apply (f_equal sent) in Hsecond. by injection Hsecond as <-. }
  exact (proj2 Hboth).
Defined.

(** [get_budgets] through [call_tool]. *)
Lemma call_tool_replies_for_the_request_witness :
  ∃ endpoint,
    main._execute_tool Sample.upstream Sample.client "get_budgets" ∅ =
    ynab_client._make_request Sample.upstream Sample.client endpoint ∧
    ∀ result w',
      run (ynab_client._make_request Sample.upstream Sample.client endpoint)
        Sample.world = (result, w') →
      run (checked.call_tool Sample_library.refusal Sample.upstream
             Sample.json_dumps Sample.environ "get_budgets" ∅) Sample.world =
      (Return [mcp.mkTextContent "text" (reply_for Sample.json_dumps result)],
       {| closed := true; sent := sent w' |}).
Proof.
  apply (call_tool_replies_for_the_request Sample.upstream Sample.json_dumps
           Sample_library.refusal Sample.environ "secret-token"
           (mcp.mkTool "get_budgets"
              "Get all budgets associated with the YNAB account"
              (mcp.mkSchema "object" [] []))
           ∅ Sample.world);
    [reflexivity|done|reflexivity|by repeat constructor|reflexivity].
Defined.

(** Any call in an empty environment. *)
Lemma call_tool_without_credential_witness :
  run (main.call_tool Sample.upstream Sample.json_dumps ∅ "get_budgets" ∅)
    Sample.world =
  (Return [mcp.mkTextContent "text" ("Configuration Error: " +:+ token_required)],
   Sample.world).
Proof.
  apply (call_tool_without_credential Sample.upstream Sample.json_dumps ∅).
  by left.
Defined.

(** [get_account] with its [budget_id] only. *)
Lemma call_tool_missing_argument_witness :
  run (checked.call_tool Sample_library.refusal Sample.upstream Sample.json_dumps
         Sample.environ "get_account" {[ "budget_id" := "b1" ]}) Sample.world =
  (Return [mcp.mkTextContent "text" "Error: 'account_id'"],
   {| closed := true; sent := [] |}).
Proof.
  apply (call_tool_missing_argument Sample.upstream Sample.json_dumps
           Sample_library.refusal Sample.environ "secret-token"
           (mcp.mkTool "get_account" "Get a single account by ID"
              (mcp.mkSchema "object"
                 [("budget_id",
                   mcp.mkProperty "string" "The budget ID or 'last-used'" None);
                  ("account_id", mcp.mkProperty "string" "The account ID" None)]
                 ["budget_id"; "account_id"]))
           {[ "budget_id" := "b1" ]} "account_id" Sample.world);
    [reflexivity|done|reflexivity|by repeat constructor|reflexivity].
Defined.

(** A token with a letter outside ASCII, and a base URL with an unclosed
    bracket. *)
Lemma call_tool_reports_refused_construction_witness :
  run (checked.call_tool Sample_library.refusal Sample.upstream
         Sample.json_dumps Sample_library.accented_token "get_budgets" ∅)
    Sample.world =
  (Return [mcp.mkTextContent "text"
             ("Configuration Error: 'ascii' codec can't encode character " +:+
              "'\xe9' in position 8: ordinal not in range(128)")],
   Sample.world) ∧
  run (checked.call_tool Sample_library.refusal Sample.upstream
         Sample.json_dumps Sample_library.malformed_url "get_budgets" ∅)
    Sample.world =
  (Return [mcp.mkTextContent "text" "Error: Invalid port: ':1'"],
   Sample.world).
Proof.
  split.
  - apply (call_tool_reports_refused_construction Sample.upstream
             Sample.json_dumps Sample_library.refusal
             Sample_library.accented_token "té"
             (UnicodeEncodeError
                ("'ascii' codec can't encode character '\xe9' " +:+
                 "in position 8: ordinal not in range(128)")));
      [reflexivity|done|reflexivity].
  - apply (call_tool_reports_refused_construction Sample.upstream
             Sample.json_dumps Sample_library.refusal
             Sample_library.malformed_url "secret-token"
             (InvalidURL "Invalid port: ':1'"));
      [reflexivity|done|reflexivity].
Defined.

(** [get_budget] with an argument its schema does not know. *)
Lemma undeclared_arguments_are_ignored_witness :
  main._execute_tool Sample.upstream Sample.client "get_budget"
    {[ "budget_id" := "b1" ]} =
  main._execute_tool Sample.upstream Sample.client "get_budget"
    {[ "budget_id" := "b1"; "verbose" := "yes" ]}.
Proof.
  apply (undeclared_arguments_are_ignored Sample.upstream
           (mcp.mkTool "get_budget"
              ("Get a single budget by ID. " +:+
               "Use 'last-used' for the most recently accessed budget.")
              (mcp.mkSchema "object"
                 [("budget_id",
                   mcp.mkProperty "string" "The budget ID or 'last-used'" None)]
                 ["budget_id"]))).
  - by repeat constructor.
  - intros parameter Hparameter.
    apply list_elem_of_singleton in Hparameter as ->. reflexivity.
Defined.

(** The transactions of an account since a date. *)
Lemma requests_read_as_path_and_filters_witness :
  ∃ request,
    (run (Call.invoke Sample.upstream Sample.client
            (Call.get_transactions_by_account "b1" "a1" (Some "2024-01-01")))
       Sample.world).2 = after_sending Sample.world request ∧
    URL.path (httpx.url request) = "/budgets/b1/accounts/a1/transactions" ∧
    URL.params (httpx.url request) = [("since_date", "2024-01-01")].
Proof.
  apply (requests_read_as_path_and_filters Sample.upstream Sample.client
           (Call.get_transactions_by_account "b1" "a1" (Some "2024-01-01"))
           Sample.world);
    [reflexivity|by repeat constructor|by repeat constructor].
Defined.

(** A date that brings a type filter along. *)
Lemma since_date_can_carry_a_type_filter_witness :
  ynab_client.get_transactions Sample.upstream Sample.client "b1"
    (Some "2024-01-01&type=unapproved") None =
  ynab_client.get_transactions Sample.upstream Sample.client "b1"
    (Some "2024-01-01") (Some "unapproved").
Proof.
  by apply (since_date_can_carry_a_type_filter Sample.upstream Sample.client
              "b1" "2024-01-01" "unapproved").
Defined.

(** A budget identifier that brings a query along. *)
Lemma identifier_can_carry_a_query_witness :
  ∃ request,
    (run (ynab_client.get_budget Sample.upstream Sample.client "b1?x=1")
       Sample.world).2 = after_sending Sample.world request ∧
    URL.path (httpx.url request) = "/budgets/b1" ∧
    URL.query (httpx.url request) = Some "x=1".
Proof.
  by apply (identifier_can_carry_a_query Sample.upstream Sample.client
              "b1" "x=1" Sample.world).
Defined.
